(** * GoTrading: the post-order dispatcher and the listing indexer's reports

    A shallow embedding of [PostOrderHandler] (the class that routes one
    signed order to a marketplace handler or to the aggregator backend)
    together with the parts of the listing indexer that the test-suite
    exercises.  JavaScript objects used as dictionaries are finite maps,
    exceptions and promise settlement are explicit, and every call that
    leaves the process (HTTP, console, marketplace handler) is written to
    a trace. *)

From stdpp Require Import gmap strings list fin_maps.


(** ** Values *)

(** The JSON-like values that order payloads and responses are made of.
    No induction over them is needed, so no schemes are generated. *)
#[local] Unset Elimination Schemes.
Inductive JsValue : Type :=
| JUndefined
| JNull
| JBool (b : bool)
| JNum (n : Z)
| JStr (s : string)
| JArr (items : list JsValue)
| JObj (fields : list (string * JsValue)).
#[local] Set Elimination Schemes.

(** Errors that the SDK raises, and errors that come from outside it. *)
Inductive Exn : Type :=
| InvalidParamError (param reason : string)
| AggregatorApiException (msg code path : string)
| ExternalError (detail : string).

(** Modelled from the spec: [BaseException.invalidParamError] lives in
    '@/exceptions', which is not among the sources.  Its message format is
    the one the [prepareListing] test compares against. *)
Definition invalidParamError (param reason : string) : Exn :=
  InvalidParamError param reason.

Definition exn_message (e : Exn) : string :=
  match e with
  | InvalidParamError param reason =>
      "The param '" +:+ param +:+ "' is invalid. " +:+ reason
  | AggregatorApiException msg _ _ => msg
  | ExternalError detail => detail
  end.

(** How a block of code ends, and how a promise settles. *)
Inductive Completion (A : Type) : Type :=
| Normal (a : A)
| Throw (e : Exn).
Arguments Normal {A} a.
Arguments Throw {A} e.

Inductive Promise (A : Type) : Type :=
| Fulfilled (a : A)
| Rejected (e : Exn).
Arguments Fulfilled {A} a.
Arguments Rejected {A} e.

(** An [async] function turns the completion of its body into the
    settlement of the promise it returns. *)
Definition async {A} (c : Completion A) : Promise A :=
  match c with
  | Normal a => Fulfilled a
  | Throw e => Rejected e
  end.

(** ** Orders and requests *)

Inductive EVMChain : Type := ETH.

Definition EVMChain_value (c : EVMChain) : string :=
  match c with ETH => "eth" end.

(** Modelled from the spec: the [OrderKind] enum is declared in '@/types',
    which is not among the sources.  The four members the dispatcher and
    the spec name, and [OtherKind] for every further member. *)
Inductive OrderKind : Type :=
| SeaportV15
| LooksRareV2
| X2Y2
| Blur
| OtherKind (tag : string).

#[global] Instance OrderKind_eq_dec : EqDecision OrderKind.
Proof. solve_decision. Defined.

Definition OrderKind_code (k : OrderKind) : nat + string :=
  match k with
  | SeaportV15 => inl 0%nat
  | LooksRareV2 => inl 1%nat
  | X2Y2 => inl 2%nat
  | Blur => inl 3%nat
  | OtherKind tag => inr tag
  end.

Definition OrderKind_decode (c : nat + string) : OrderKind :=
  match c with
  | inl 0%nat => SeaportV15
  | inl 1%nat => LooksRareV2
  | inl 2%nat => X2Y2
  | inl _ => Blur
  | inr tag => OtherKind tag
  end.

#[global] Instance OrderKind_countable : Countable OrderKind.
Proof.
  apply (inj_countable' OrderKind_code OrderKind_decode).
  intros []; reflexivity.
Defined.

Record Order : Type := mkOrder {
  kind : OrderKind;
  data : gmap string JsValue;
}.

Record BulkProof : Type := mkBulkProof {
  orderIndex : Z;
  merkleProof : list string;
}.

Record BulkData : Type := mkBulkData {
  bulk_kind : string;
  bulk_data : BulkProof;
}.

Record ExtraArgs : Type := mkExtraArgs {
  version : string;
}.

Record PostOrderReq : Type := mkPostOrderReq {
  order : Order;
  signature : option string;
  bulkData : option BulkData;
  extraArgs : ExtraArgs;
}.

(** [if (signature)]: the string the guard lets through.  An absent
    signature and the empty string are falsy. *)
Definition truthy (sig : option string) : option string :=
  match sig with
  | Some s => if String.eqb s "" then None else Some s
  | None => None
  end.

(** The three fields the dispatcher takes from ethers' [splitSignature]. *)
Record Signature : Type := mkSignature {
  sig_v : Z;
  sig_r : string;
  sig_s : string;
}.

(** ** The outside world *)

Record AggregatorApiStatusResponse : Type := mkResponse {
  code : string;
  msg : string;
  resp_data : JsValue;
}.

(** [HTTPClient.post<R, P>(url, data, headers)] of interface.ts; the
    method is generic in the body type. *)
Record HTTPClient : Type := mkHTTPClient {
  http_post : forall P : Type,
    string -> P -> gmap string string -> Promise AggregatorApiStatusResponse;
}.

(** [IPostOrderHandler]: the one capability of a protocol handler.  The
    call either throws at once or returns a promise. *)
Record IPostOrderHandler : Type := mkHandler {
  handler_handle : Order -> Completion (Promise JsValue);
}.

(** What the module imports and the sources do not contain. *)
Class Imports : Type := {
  ApiKeyConfig : Type;
  BASE_URL : string;
  OrderKind_value : OrderKind -> string;
  splitSignature : string -> option Signature;
  encodeBulkOrderProofAndSignature : Z -> list string -> string -> option string;
  SeaportV1D5Handler : HTTPClient -> ApiKeyConfig -> IPostOrderHandler;
  LooksRareV2Handler : HTTPClient -> ApiKeyConfig -> IPostOrderHandler;
  X2Y2Handler : HTTPClient -> ApiKeyConfig -> IPostOrderHandler;
}.

(** Calls that leave the process, in the order they are made. *)
Inductive Event : Type :=
| EvHttpPost (P : Type) (url : string) (body : P) (hdrs : gmap string string)
| EvConsoleInfo (label : string) (v : JsValue)
| EvHandlerCall (k : OrderKind) (o : Order).

(** ** A state and exception monad *)

Definition M (St A : Type) : Type := St -> Completion A * St.

Definition ret {St A} (a : A) : M St A := fun st => (Normal a, st).

Definition throw {St A} (e : Exn) : M St A := fun st => (Throw e, st).

Definition bind {St A B} (c : M St A) (k : A -> M St B) : M St B :=
  fun st =>
    match c st with
    | (Normal a, st') => k a st'
    | (Throw e, st') => (Throw e, st')
    end.

Definition try_catch {St A} (c : M St A) (h : Exn -> M St A) : M St A :=
  fun st =>
    match c st with
    | (Normal a, st') => (Normal a, st')
    | (Throw e, st') => h e st'
    end.

Definition get {St} : M St St := fun st => (Normal st, st).

Definition modify {St} (f : St -> St) : M St unit := fun st => (Normal tt, f st).

(** [await p]: a rejected promise throws at the point of the [await]. *)
Definition await {St A} (p : Promise A) : M St A :=
  match p with
  | Fulfilled a => ret a
  | Rejected e => throw e
  end.

(** A call that throws or returns. *)
Definition complete {St A} (c : Completion A) : M St A :=
  match c with
  | Normal a => ret a
  | Throw e => throw e
  end.

Declare Scope js_scope.
Delimit Scope js_scope with js.
Notation "'let!' x ':=' c 'in' k" := (bind c (fun x => k))
  (at level 10, x name, c at level 100, k at level 200) : js_scope.
Notation "c ';;' k" := (bind c (fun _ => k))
  (at level 100, k at level 200, right associativity) : js_scope.
Open Scope js_scope.

(** A computation that leaves one component of the state as it found it. *)
Definition preserves {St A B} (proj : St -> B) (c : M St A) : Prop :=
  forall st, proj (snd (c st)) = proj st.

(** ** The dispatcher: [PostOrderHandler] *)

Section Dispatcher.
Context {imports : Imports}.

(** The fields of [ListingIndexerConfig] that the dispatcher reads; the
    type itself is declared in '@/types'. *)
Record ListingIndexerConfig : Type := mkConfig {
  apiKey : string;
  baseUrl : option string;
  chain : option EVMChain;
  openSeaApiKeyConfig : option ApiKeyConfig;
  looksRareApiKeyConfig : option ApiKeyConfig;
  x2y2ApiKeyConfig : option ApiKeyConfig;
}.

(** The three private fields of the class. *)
Record PostOrderHandler : Type := mkPostOrderHandler {
  client : HTTPClient;
  config : ListingIndexerConfig;
  handlers : gmap OrderKind IPostOrderHandler;
}.

(** [this.handlers.set(kind, new H(client, cfg))] under [if (cfg)]. *)
Definition register (k : OrderKind)
    (mk : HTTPClient -> ApiKeyConfig -> IPostOrderHandler)
    (cl : HTTPClient) (cfg : option ApiKeyConfig)
    (hs : gmap OrderKind IPostOrderHandler) : gmap OrderKind IPostOrderHandler :=
  match cfg with
  | Some c => <[k := mk cl c]> hs
  | None => hs
  end.

Definition constructor (cl : HTTPClient) (cfg : ListingIndexerConfig)
  : PostOrderHandler :=
  let hs0 : gmap OrderKind IPostOrderHandler := ∅ in
  let hs1 := register SeaportV15 SeaportV1D5Handler cl (openSeaApiKeyConfig cfg) hs0 in
  let hs2 := register LooksRareV2 LooksRareV2Handler cl (looksRareApiKeyConfig cfg) hs1 in
  let hs3 := register X2Y2 X2Y2Handler cl (x2y2ApiKeyConfig cfg) hs2 in
  {| client := cl; config := cfg; handlers := hs3 |}.

(** The dispatcher object and the calls made so far. *)
Record World : Type := mkWorld {
  this : PostOrderHandler;
  trace : list Event;
}.

(** During [handle] the caller's request object is live as well: its
    [order.data] is written to. *)
Record Frame : Type := mkFrame {
  world : World;
  params : PostOrderReq;
}.

Definition emit (e : Event) : M World unit :=
  modify (fun w => {| this := this w; trace := trace w ++ [e] |}).

Definition lift {A} (c : M World A) : M Frame A :=
  fun fr =>
    let '(r, w') := c (world fr) in
    (r, {| world := w'; params := params fr |}).

Definition get_params : M Frame PostOrderReq :=
  fun fr => (Normal (params fr), fr).

(** The request object once [order.data] holds [d]. *)
Definition put_data (p : PostOrderReq) (d : gmap string JsValue) : PostOrderReq :=
  {| order := {| kind := kind (order p); data := d |};
     signature := signature p;
     bulkData := bulkData p;
     extraArgs := extraArgs p |}.

(** [params.order.data = d] *)
Definition set_order_data (d : gmap string JsValue) : M Frame unit :=
  modify (fun fr => {| world := world fr; params := put_data (params fr) d |}).

(** [get headers()] *)
Definition headers (t : PostOrderHandler) : gmap string string :=
  <["X-FROM" := "js_sdk"]> (<["X-API-KEY" := apiKey (config t)]> ∅).

(** [get url()] *)
Definition url (t : PostOrderHandler) : string :=
  default BASE_URL (baseUrl (config t)) +:+ "/aggregator" +:+ "/v1" +:+ "/"
    +:+ EVMChain_value (default ETH (chain (config t))) +:+ "/nft".

(** [this.client.post(url, params, headers)], awaited. *)
Definition client_post {Req : Type} (u : string) (body : Req)
    (hdrs : gmap string string) : M World AggregatorApiStatusResponse :=
  let! w := get in
  emit (EvHttpPost Req u body hdrs) ;;
  await (http_post (client (this w)) Req u body hdrs).

Definition post {Req : Type} (path : string) (body : Req) : M World JsValue :=
  let! w := get in
  let! response := client_post (url (this w) +:+ path) body (headers (this w)) in
  if String.eqb (code response) "SUCCESS"
  then ret (resp_data response)
  else throw (AggregatorApiException (msg response) (code response) path).

Definition console_info (label : string) (v : JsValue) : M World unit :=
  emit (EvConsoleInfo label v).

(** [handler.handle(params.order)]: the promise it returns is dropped. *)
Definition call_handler (k : OrderKind) (h : IPostOrderHandler)
  : M Frame (Promise JsValue) :=
  let! p := get_params in
  lift (emit (EvHandlerCall k (order p))) ;;
  complete (handler_handle h (order p)).

(** [{ ...data, signature, v, r, s }] *)
Definition merge_signature (d : gmap string JsValue) (sig : string)
    (parts : Signature) : gmap string JsValue :=
  <["s" := JStr (sig_s parts)]>
    (<["r" := JStr (sig_r parts)]>
      (<["v" := JNum (sig_v parts)]>
        (<["signature" := JStr sig]> d))).

Definition split (sig : string) : M Frame Signature :=
  match splitSignature sig with
  | Some parts => ret parts
  | None => throw (ExternalError "invalid signature string")
  end.

Definition encode_bulk (b : BulkProof) (sig : string) : M Frame string :=
  match encodeBulkOrderProofAndSignature (orderIndex b) (merkleProof b) sig with
  | Some packed => ret packed
  | None => throw (ExternalError "cannot encode the bulk order proof")
  end.

(** [params.bulkData?.kind === 'seaport-v1.5'] *)
Definition is_seaport_bulk (b : option BulkData) : option BulkProof :=
  match b with
  | Some bd => if String.eqb (bulk_kind bd) "seaport-v1.5"
               then Some (bulk_data bd) else None
  | None => None
  end.

(** The body of [case 'v3']. *)
Definition embed_v3 (sig : option string) : M Frame unit :=
  match truthy sig with
  | Some signature =>
      try_catch
        (let! parts := split signature in
         let! p := get_params in
         set_order_data (merge_signature (data (order p)) signature parts))
        (fun _ => throw (invalidParamError "signature"
                           ("invalid signature " +:+ signature)))
  | None => ret tt
  end.

(** The body of [case 'v4']. *)
Definition embed_v4 (sig : option string) : M Frame unit :=
  match truthy sig with
  | Some signature =>
      try_catch
        (let! parts := split signature in
         let! p := get_params in
         match is_seaport_bulk (bulkData p) with
         | Some proof =>
             let! packed := encode_bulk proof signature in
             let! p := get_params in
             set_order_data (<["signature" := JStr packed]> (data (order p)))
         | None =>
             set_order_data (merge_signature (data (order p)) signature parts)
         end)
        (fun _ => throw (invalidParamError "signature"
                           ("invalid signature " +:+ signature)))
  | None => ret tt
  end.

(** The body of [async handle(params)]. *)
Definition handle_body : M Frame JsValue :=
  let! p := get_params in
  if decide (kind (order p) = Blur) then
    let! res := lift (post "/post-order/v1" p) in
    lift (console_info "res" res) ;;
    ret (JObj [("message", JStr "blur")])
  else
    let signature := signature p in
    let! fr := get in
    match handlers (this (world fr)) !! kind (order p) with
    | None =>
        throw (invalidParamError "order.kind"
                 ("unsupported orderKind " +:+ OrderKind_value (kind (order p))))
    | Some handler =>
        if String.eqb (version (extraArgs p)) "v3" then
          embed_v3 signature ;;
          call_handler (kind (order p)) handler ;;
          ret JUndefined
        else if String.eqb (version (extraArgs p)) "v4" then
          embed_v4 signature ;;
          call_handler (kind (order p)) handler ;;
          ret JUndefined
        else
          throw (invalidParamError "extraArgs.version"
                   ("unsupported version " +:+ version (extraArgs p)))
    end.

(** [handle] as its caller sees it: the promise, and the state left behind. *)
Definition handle (p : PostOrderReq) (w : World) : Promise JsValue * Frame :=
  let '(c, fr) := handle_body {| world := w; params := p |} in
  (async c, fr).

(** The same request under another version tag. *)
Definition with_version (ver : string) (p : PostOrderReq) : PostOrderReq :=
  {| order := order p;
     signature := signature p;
     bulkData := bulkData p;
     extraArgs := {| version := ver |} |}.

Definition run_post {Req : Type} (path : string) (body : Req) (w : World)
  : Promise JsValue * World :=
  let '(c, w') := post path body w in
  (async c, w').

End Dispatcher.

(** ** The listing indexer's batch report *)

Section Indexer.
Context {imports : Imports}.

(** [NFTBaseInfo] of interface.ts. *)
Record NFTBaseInfo : Type := mkNFT {
  contract : option string;
  tokenId : option string;
}.

Record ApprovalPolicy : Type := mkPolicy {
  autoApprove : bool;
}.

(** What the indexer holds besides the dispatcher: the wallet that signs,
    the version tag it posts with, and the backend path of its listing
    query. *)
Record IndexerEnv : Type := mkIndexerEnv {
  wallet_sign : Order -> Promise string;
  post_version : string;
  listing_query_path : string;
}.

Variable env : IndexerEnv.

(** Modelled from the spec: [ListingIndexerStable.postListingOrder], whose
    class is not among the sources (only its tests are).  A thin delegate
    to the dispatcher's [handle], awaited. *)
Definition postListingOrder (p : PostOrderReq) : M World JsValue :=
  fun w =>
    let '(pr, fr) := handle p w in
    await pr (world fr).

(** Modelled from the spec: one item of [listingWithPolicy]; the wallet
    signs the order and the signed request goes to [postListingOrder]. *)
Definition list_item (o : Order) : M World JsValue :=
  let! sig := await (wallet_sign env o) in
  postListingOrder
    {| order := o; signature := Some sig; bulkData := None;
       extraArgs := {| version := post_version env |} |}.

(** An order of a kind the dispatcher cannot post: not Blur and without a
    registered handler. *)
Definition bad_kind (t : PostOrderHandler) (o : Order) : bool :=
  if decide (kind o = Blur) then false
  else match handlers t !! kind o with
       | Some _ => false
       | None => true
       end.

(** Modelled from the spec: [ListingIndexerStable.prepareListing], whose
    class is not among the sources.  Validation first; the listing state
    then comes from the aggregator through the backend [post]. *)
Definition prepareListing (nfts : list NFTBaseInfo) : M World JsValue :=
  match nfts with
  | [] => throw (invalidParamError "nfts" "nfts should not be empty")
  | _ :: _ => post (listing_query_path env) nfts
  end.

(** Modelled from the spec: what the approval step reads and does, none of
    it among the sources.  The NFT an order lists, whether the step data
    of [prepareListing] says that the item still requires operator
    approval (an operator that is approved already does not), and the
    on-chain approval transaction. *)
Record ApprovalEnv : Type := mkApprovalEnv {
  listed_nft : Order -> NFTBaseInfo;
  requires_approval : JsValue -> Order -> bool;
  submit_approval : Order -> Promise unit;
}.

Variable approvals : ApprovalEnv.

(** Modelled from the spec: [ListingIndexerStable.approveWithPolicy]
    (4.1).  An item that requires approval gets its approval transaction
    when the policy is [autoApprove]; otherwise the approval is skipped by
    policy (5) and the item goes on as it is.  Each item comes back with
    the promise of its approval. *)
Definition approveWithPolicy (steps : JsValue) (policy : ApprovalPolicy)
    (orders : list Order) : list (Order * Promise unit) :=
  List.map
    (fun o =>
       (o, if requires_approval approvals steps o && autoApprove policy
           then submit_approval approvals o
           else Fulfilled tt))
    orders.

(** Modelled from the spec: [ListingIndexerStable.listingWithPolicy] (4.1,
    7).  Item by item: the approval is awaited, the order is signed and
    posted, and whatever fails on the way is caught at the batch boundary
    and recorded under the item's index. *)
Fixpoint listingWithPolicy (i : nat) (items : list (Order * Promise unit))
    (successIndexes failIndexes : list nat) : M World (list nat * list nat) :=
  match items with
  | [] => ret (successIndexes, failIndexes)
  | (o, approval) :: rest =>
      let! ok := try_catch (await approval ;; list_item o ;; ret true)
                           (fun _ => ret false) in
      if (ok : bool)
      then listingWithPolicy (S i) rest (successIndexes ++ [i]) failIndexes
      else listingWithPolicy (S i) rest successIndexes (failIndexes ++ [i])
  end.

(** Modelled from the spec: [ListingIndexerStable.bulkListing], whose class
    is not among the sources: prepare, approve, then sign and list (2,
    4.1).  The call as a whole fails where [prepareListing] does, on the
    empty input and on a failure of the backend query (7); from then on
    every failure belongs to one item. *)
Definition bulkListing (orders : list Order) (policy : ApprovalPolicy)
  : M World (list nat * list nat) :=
  let! steps := prepareListing (List.map (listed_nft approvals) orders) in
  listingWithPolicy 0 (approveWithPolicy steps policy orders) [] [].

End Indexer.

(** ** A concrete environment for the examples *)

Module Sample.
#[local] Open Scope Z_scope.

Definition hex_digit (c : Ascii.ascii) : option Z :=
  let n := Z.of_nat (Ascii.nat_of_ascii c) in
  if (48 <=? n) && (n <=? 57) then Some (n - 48)
  else if (97 <=? n) && (n <=? 102) then Some (n - 87)
  else if (65 <=? n) && (n <=? 70) then Some (n - 55)
  else None.

Fixpoint hex_value (s : string) (acc : Z) : option Z :=
  match s with
  | EmptyString => Some acc
  | String c rest =>
      match hex_digit c with
      | Some d => hex_value rest (16 * acc + d)
      | None => None
      end
  end.

(** Stands in for ethers' [splitSignature] on 65-byte hex strings:
    [0x], 32 bytes of r, 32 bytes of s, one byte of v (0 and 1 are taken
    as 27 and 28). *)
Definition split65 (sig : string) : option Signature :=
  if String.prefix "0x" sig && Nat.eqb (String.length sig) 132%nat then
    match hex_value (String.substring 2 128 sig) 0,
          hex_value (String.substring 130 2 sig) 0 with
    | Some _, Some v =>
        let v' := if v <? 2 then v + 27 else v in
        if v' <? 27 then None
        else Some {| sig_v := v';
                     sig_r := "0x" +:+ String.substring 2 64 sig;
                     sig_s := "0x" +:+ String.substring 66 64 sig |}
    | _, _ => None
    end
  else None.

Definition strip0x (s : string) : string :=
  if String.prefix "0x" s then String.substring 2 (String.length s - 2) s else s.

(** Stands in for the Seaport helper: fails on an empty proof. *)
Definition pack (index : Z) (proof : list string) (sig : string) : option string :=
  match proof with
  | [] => None
  | _ :: _ => Some (sig +:+ String.concat "" (List.map strip0x proof))
  end.

(** A marketplace that turns away an empty API key. *)
Definition marketplace (label : string) (_ : HTTPClient) (key : string)
  : IPostOrderHandler :=
  {| handler_handle := fun _ =>
       if String.eqb key ""
       then Normal (Rejected (ExternalError (label +:+ ": 401")))
       else Normal (Fulfilled (JStr label)) |}.

#[export] Instance imports : Imports := {|
  ApiKeyConfig := string;
  BASE_URL := "https://data-api.nftgo.io";
  OrderKind_value := fun k =>
    match k with
    | SeaportV15 => "seaport-v1.5"
    | LooksRareV2 => "looks-rare-v2"
    | X2Y2 => "x2y2"
    | Blur => "blur"
    | OtherKind tag => tag
    end;
  splitSignature := split65;
  encodeBulkOrderProofAndSignature := pack;
  SeaportV1D5Handler := marketplace "opensea";
  LooksRareV2Handler := marketplace "looksrare";
  X2Y2Handler := marketplace "x2y2";
|}.

(** A backend that accepts every post. *)
Definition backend : HTTPClient :=
  {| http_post := fun _ _ _ _ =>
       Fulfilled {| code := "SUCCESS"; msg := ""; resp_data := JNull |} |}.

(** LooksRare is left unconfigured; the X2Y2 key is empty. *)
Definition cfg : ListingIndexerConfig :=
  {| apiKey := "k"; baseUrl := None; chain := None;
     openSeaApiKeyConfig := Some "os-key";
     looksRareApiKeyConfig := None;
     x2y2ApiKeyConfig := Some "" |}.

Definition w0 : World := {| this := constructor backend cfg; trace := [] |}.

Definition sig65 : string :=
  "0x" +:+ String.concat "" (List.repeat "11" 32)
       +:+ String.concat "" (List.repeat "22" 32) +:+ "1b".

Definition req (k : OrderKind) (ver : string) (sig : option string)
    (bulk : option BulkData) : PostOrderReq :=
  {| order := {| kind := k; data := ∅ |};
     signature := sig; bulkData := bulk;
     extraArgs := {| version := ver |} |}.

Definition seaport_bulk : BulkData :=
  {| bulk_kind := "seaport-v1.5";
     bulk_data := {| orderIndex := 1; merkleProof := ["0xaa"; "0xbb"] |} |}.

Definition indexer : IndexerEnv :=
  {| wallet_sign := fun _ => Fulfilled sig65;
     post_version := "v3";
     listing_query_path := "/listings" |}.

(** Orders carry their NFT under 'contract' and 'tokenId'; an order marked
    'operator-rejects' has its approval transaction turned down. *)
Definition text_field (o : Order) (key : string) : option string :=
  match data o !! key with
  | Some (JStr s) => Some s
  | _ => None
  end.

Definition approval_env : ApprovalEnv :=
  {| listed_nft := fun o =>
       {| contract := text_field o "contract"; tokenId := text_field o "tokenId" |};
     requires_approval := fun _ _ => true;
     submit_approval := fun o =>
       match data o !! "operator-rejects" with
       | Some _ => Rejected (ExternalError "approval rejected")
       | None => Fulfilled tt
       end |}.

End Sample.

(** * Properties of the dispatcher *)

(** Projections out of literal records, and the pairs a run returns. *)
Ltac js_simpl :=
  cbn beta iota delta [world params this trace fst snd async order kind data
                       signature bulkData extraArgs version].

(** Unfolds the monad so that a run of the dispatcher computes. *)
Ltac run_js :=
  unfold handle, handle_body, embed_v3, embed_v4, call_handler, split,
    encode_bulk, set_order_data, get_params, lift, run_post, post,
    client_post, console_info, emit, try_catch, bind, get, modify, await,
    complete, ret, throw;
  js_simpl.

Section DispatcherFacts.
Context {imports : Imports}.

Lemma version_not_v3 (ver : string) : ver <> "v3" -> String.eqb ver "v3" = false.
Proof. intros H. apply String.eqb_neq. exact H. Qed.

Lemma version_not_v4 (ver : string) : ver <> "v4" -> String.eqb ver "v4" = false.
Proof. intros H. apply String.eqb_neq. exact H. Qed.

(** C4.  A Blur order goes to the backend's '/post-order/v1' and nowhere
    else: the request object is left as it was, the only calls made are
    the HTTP post and (on success) the console line, no protocol handler is
    called, and neither the version tag nor the signature plays a part in
    the outcome. *)
Theorem handle_blur_posts_to_backend (p : PostOrderReq) (w : World) :
  kind (order p) = Blur ->
  let target := url (this w) +:+ "/post-order/v1" in
  let sent := EvHttpPost PostOrderReq target p (headers (this w)) in
  handle p w =
    match http_post (client (this w)) PostOrderReq target p (headers (this w)) with
    | Fulfilled response =>
        if String.eqb (code response) "SUCCESS"
        then (Fulfilled (JObj [("message", JStr "blur")]),
              {| world := {| this := this w;
                             trace := (trace w ++ [sent])
                                        ++ [EvConsoleInfo "res" (resp_data response)] |};
                 params := p |})
        else (Rejected (AggregatorApiException (msg response) (code response)
                          "/post-order/v1"),
              {| world := {| this := this w; trace := trace w ++ [sent] |};
                 params := p |})
    | Rejected e =>
        (Rejected e,
         {| world := {| this := this w; trace := trace w ++ [sent] |};
            params := p |})
    end.
Proof.
  intros Hk target sent. subst target sent. run_js.
  rewrite decide_True by exact Hk.
  destruct (http_post _ _ _ _ _) as [response | e]; cbn.
  - destruct (String.eqb (code response) "SUCCESS"); reflexivity.
  - reflexivity.
Qed.

(** The lookup miss, at the level of the body. *)
Lemma handle_body_unregistered (p : PostOrderReq) (w : World) :
  kind (order p) <> Blur ->
  handlers (this w) !! kind (order p) = None ->
  handle_body {| world := w; params := p |} =
    (Throw (InvalidParamError "order.kind"
              ("unsupported orderKind " +:+ OrderKind_value (kind (order p)))),
     {| world := w; params := p |}).
Proof.
  intros Hk Hnone. run_js.
  rewrite decide_False by exact Hk. js_simpl.
  rewrite Hnone. reflexivity.
Qed.

(** C5.  A kind that is not Blur and has no registered handler fails with
    InvalidParamError('order.kind', ...); nothing has been sent, called or
    written by then. *)
Theorem handle_unregistered_kind (p : PostOrderReq) (w : World) :
  kind (order p) <> Blur ->
  handlers (this w) !! kind (order p) = None ->
  handle p w =
    (Rejected (InvalidParamError "order.kind"
                 ("unsupported orderKind " +:+ OrderKind_value (kind (order p)))),
     {| world := w; params := p |}).
Proof.
  intros Hk Hnone. unfold handle.
  rewrite handle_body_unregistered by assumption. reflexivity.
Qed.

(** C6.  With a registered, non-Blur kind, a version tag other than 'v3'
    and 'v4' fails with InvalidParamError('extraArgs.version',
    'unsupported version ' + version); the handler is not called and
    nothing is written. *)
Theorem handle_unsupported_version (p : PostOrderReq) (w : World)
    (h : IPostOrderHandler) :
  kind (order p) <> Blur ->
  handlers (this w) !! kind (order p) = Some h ->
  version (extraArgs p) <> "v3" ->
  version (extraArgs p) <> "v4" ->
  handle p w =
    (Rejected (InvalidParamError "extraArgs.version"
                 ("unsupported version " +:+ version (extraArgs p))),
     {| world := w; params := p |}).
Proof.
  intros Hk Hreg H3 H4. run_js.
  rewrite decide_False by exact Hk. js_simpl.
  rewrite Hreg, (version_not_v3 _ H3), (version_not_v4 _ H4).
  reflexivity.
Qed.

Lemma truthy_nonempty (sig : string) : sig <> "" -> truthy (Some sig) = Some sig.
Proof.
  intros H. unfold truthy. now rewrite (proj2 (String.eqb_neq _ _) H).
Qed.

Lemma merge_signature_fields (d : gmap string JsValue) (sig : string)
    (parts : Signature) :
  merge_signature d sig parts !! "signature" = Some (JStr sig) /\
  merge_signature d sig parts !! "v" = Some (JNum (sig_v parts)) /\
  merge_signature d sig parts !! "r" = Some (JStr (sig_r parts)) /\
  merge_signature d sig parts !! "s" = Some (JStr (sig_s parts)) /\
  (forall key : string,
     key <> "signature" -> key <> "v" -> key <> "r" -> key <> "s" ->
     merge_signature d sig parts !! key = d !! key).
Proof.
  unfold merge_signature. repeat split.
  - rewrite !lookup_insert_ne by discriminate. apply lookup_insert_eq.
  - rewrite !lookup_insert_ne by discriminate. apply lookup_insert_eq.
  - rewrite !lookup_insert_ne by discriminate. apply lookup_insert_eq.
  - apply lookup_insert_eq.
  - intros key H1 H2 H3 H4. rewrite !lookup_insert_ne by congruence. reflexivity.
Qed.

Lemma is_seaport_bulk_some (b : option BulkData) (bd : BulkData) :
  b = Some bd -> bulk_kind bd = "seaport-v1.5" ->
  is_seaport_bulk b = Some (bulk_data bd).
Proof. intros -> Hk. unfold is_seaport_bulk. rewrite Hk. reflexivity. Qed.

Lemma is_seaport_bulk_none (b : option BulkData) :
  (forall bd, b = Some bd -> bulk_kind bd <> "seaport-v1.5") ->
  is_seaport_bulk b = None.
Proof.
  intros H. destruct b as [bd|]; [|reflexivity]. unfold is_seaport_bulk.
  rewrite (proj2 (String.eqb_neq _ _) (H bd eq_refl)). reflexivity.
Qed.

(** The two version branches embed the signature in the same way unless
    the request carries a Seaport bulk proof. *)
Lemma embed_v4_as_v3 (sig : option string) (fr : Frame) :
  is_seaport_bulk (bulkData (params fr)) = None ->
  embed_v4 sig fr = embed_v3 sig fr.
Proof.
  intros Hb. unfold embed_v4, embed_v3.
  destruct (truthy sig); [|reflexivity].
  unfold try_catch, bind, get_params, split.
  destruct (splitSignature _) as [parts|]; unfold ret, throw; [|reflexivity].
  rewrite Hb. reflexivity.
Qed.

(** C3, as amended.  Under 'v3', with a registered non-Blur kind and a
    signature that is present and not the empty string: when the signature
    splits, [order.data] receives signature, v, r and s (its other keys are
    kept) and the handler is then called with that order; when it does not
    split, the dispatch fails with InvalidParamError('signature', ...) and
    nothing has been called or written. *)
Theorem handle_v3_embeds_signature (p : PostOrderReq) (w : World)
    (h : IPostOrderHandler) (sig : string) :
  version (extraArgs p) = "v3" ->
  kind (order p) <> Blur ->
  handlers (this w) !! kind (order p) = Some h ->
  signature p = Some sig ->
  sig <> "" ->
  match splitSignature sig with
  | Some parts =>
      let d := merge_signature (data (order p)) sig parts in
      let p' := put_data p d in
      handle p w =
        (match handler_handle h (order p') with
         | Normal _ => Fulfilled JUndefined
         | Throw e => Rejected e
         end,
         {| world := {| this := this w;
                        trace := trace w ++ [EvHandlerCall (kind (order p)) (order p')] |};
            params := p' |})
      /\ d !! "signature" = Some (JStr sig)
      /\ d !! "v" = Some (JNum (sig_v parts))
      /\ d !! "r" = Some (JStr (sig_r parts))
      /\ d !! "s" = Some (JStr (sig_s parts))
      /\ (forall key : string,
            key <> "signature" -> key <> "v" -> key <> "r" -> key <> "s" ->
            d !! key = data (order p) !! key)
  | None =>
      handle p w =
        (Rejected (InvalidParamError "signature" ("invalid signature " +:+ sig)),
         {| world := w; params := p |})
  end.
Proof.
  intros Hv Hk Hreg Hsig Hne.
  destruct (splitSignature sig) as [parts|] eqn:Hsplit.
  - split; [|apply merge_signature_fields].
    run_js. rewrite decide_False by exact Hk. js_simpl.
    rewrite Hreg, Hv, Hsig, (truthy_nonempty _ Hne). cbn.
    rewrite Hsplit. js_simpl.
    destruct (handler_handle h _); reflexivity.
  - run_js. rewrite decide_False by exact Hk. js_simpl.
    rewrite Hreg, Hv, Hsig, (truthy_nonempty _ Hne). cbn.
    rewrite Hsplit. destruct w; reflexivity.
Qed.

(** Under 'v4' a signature that does not split, or a proof that does not
    encode, ends the dispatch before the handler is reached. *)
Lemma handle_v4_bulk_failure (p : PostOrderReq) (w : World)
    (h : IPostOrderHandler) (sig : string) (bd : BulkData) :
  version (extraArgs p) = "v4" ->
  kind (order p) <> Blur ->
  handlers (this w) !! kind (order p) = Some h ->
  signature p = Some sig ->
  sig <> "" ->
  bulkData p = Some bd ->
  bulk_kind bd = "seaport-v1.5" ->
  splitSignature sig = None \/
  encodeBulkOrderProofAndSignature
    (orderIndex (bulk_data bd)) (merkleProof (bulk_data bd)) sig = None ->
  handle p w =
    (Rejected (InvalidParamError "signature" ("invalid signature " +:+ sig)),
     {| world := w; params := p |}).
Proof.
  intros Hv Hk Hreg Hsig Hne Hb Hbk Hfail.
  run_js. rewrite decide_False by exact Hk. js_simpl.
  rewrite Hreg, Hv, Hsig, (truthy_nonempty _ Hne). cbn.
  destruct (splitSignature sig) as [parts|] eqn:Hsplit.
  - destruct Hfail as [Hfail|Hfail]; [discriminate|].
    js_simpl. rewrite (is_seaport_bulk_some _ _ Hb Hbk), Hfail.
    destruct w; reflexivity.
  - destruct w; reflexivity.
Qed.

(** C1, as amended.  Under 'v4': (a) with a registered non-Blur kind, a
    non-empty signature that splits, and bulk data of kind 'seaport-v1.5'
    whose proof encodes, [order.data.signature] becomes the packed value
    that encodeBulkOrderProofAndSignature returns for (orderIndex,
    merkleProof, signature), the other keys of [order.data] are kept, and
    the handler is called with that order; (b) when the bulk data is absent
    or of another kind, the dispatch ends as it does under 'v3': same
    settlement, same calls, same order left behind. *)
Theorem handle_v4_bulk_or_split (p : PostOrderReq) (w : World) :
  version (extraArgs p) = "v4" ->
  (forall (h : IPostOrderHandler) (sig : string) (bd : BulkData)
          (parts : Signature) (packed : string),
     kind (order p) <> Blur ->
     handlers (this w) !! kind (order p) = Some h ->
     signature p = Some sig ->
     sig <> "" ->
     bulkData p = Some bd ->
     bulk_kind bd = "seaport-v1.5" ->
     splitSignature sig = Some parts ->
     encodeBulkOrderProofAndSignature
       (orderIndex (bulk_data bd)) (merkleProof (bulk_data bd)) sig = Some packed ->
     let p' := put_data p (<["signature" := JStr packed]> (data (order p))) in
     handle p w =
       (match handler_handle h (order p') with
        | Normal _ => Fulfilled JUndefined
        | Throw e => Rejected e
        end,
        {| world := {| this := this w;
                       trace := trace w ++ [EvHandlerCall (kind (order p)) (order p')] |};
           params := p' |}))
  /\
  (kind (order p) <> Blur ->
   (forall bd, bulkData p = Some bd -> bulk_kind bd <> "seaport-v1.5") ->
   let r4 := handle p w in
   let r3 := handle (with_version "v3" p) w in
   fst r4 = fst r3 /\
   world (snd r4) = world (snd r3) /\
   order (params (snd r4)) = order (params (snd r3))).
Proof.
  intros Hv. split.
  - intros h sig bd parts packed Hk Hreg Hsig Hne Hb Hbk Hsplit Henc.
    run_js. rewrite decide_False by exact Hk. js_simpl.
    rewrite Hreg, Hv, Hsig, (truthy_nonempty _ Hne). cbn.
    rewrite Hsplit. js_simpl.
    rewrite (is_seaport_bulk_some _ _ Hb Hbk), Henc. js_simpl.
    destruct (handler_handle h _); reflexivity.
  - intros Hk Hb. apply is_seaport_bulk_none in Hb.
    destruct p as [[k d] sg bulk [ver]]. cbn in Hv, Hk, Hb. subst ver.
    unfold with_version. run_js.
    rewrite !decide_False by exact Hk. js_simpl.
    destruct (handlers (this w) !! k) as [h|]; [|done].
    cbn [String.eqb Ascii.eqb Bool.eqb].
    destruct (truthy sg); js_simpl.
    + destruct (splitSignature _) as [parts|]; js_simpl; [|done].
      rewrite Hb. unfold put_data. js_simpl.
      destruct (handler_handle h _); done.
    + destruct (handler_handle h _); done.
Qed.

(** C9, on the code.  When the selected handler returns a promise that
    rejects, the dispatcher has already let go of it: the handler was
    called once, and the promise of [handle] fulfils with [undefined]. *)
Theorem handle_drops_handler_rejection (p : PostOrderReq) (w : World)
    (h : IPostOrderHandler) (e : Exn) :
  kind (order p) <> Blur ->
  handlers (this w) !! kind (order p) = Some h ->
  version (extraArgs p) = "v3" \/ version (extraArgs p) = "v4" ->
  signature p = None ->
  handler_handle h (order p) = Normal (Rejected e) ->
  handle p w =
    (Fulfilled JUndefined,
     {| world := {| this := this w;
                    trace := trace w ++ [EvHandlerCall (kind (order p)) (order p)] |};
        params := p |}).
Proof.
  intros Hk Hreg Hv Hsig Hrej.
  run_js. rewrite decide_False by exact Hk. js_simpl.
  rewrite Hreg, Hsig.
  destruct Hv as [-> | ->]; cbn; rewrite Hrej; reflexivity.
Qed.

Lemma append_assoc (a b c : string) : (a +:+ b) +:+ c = a +:+ b +:+ c.
Proof.
  induction a as [|x a IH]; [reflexivity|].
  change (String x ((a +:+ b) +:+ c) = String x (a +:+ b +:+ c)).
  now rewrite IH.
Qed.

Lemma url_path (t : PostOrderHandler) (path : string) :
  url t +:+ path =
  default BASE_URL (baseUrl (config t)) +:+ "/aggregator/v1/"
    +:+ EVMChain_value (default ETH (chain (config t))) +:+ "/nft" +:+ path.
Proof. unfold url. rewrite !append_assoc. reflexivity. Qed.

Lemma headers_fields (t : PostOrderHandler) :
  headers t !! "X-API-KEY" = Some (apiKey (config t)) /\
  headers t !! "X-FROM" = Some "js_sdk" /\
  (forall name : string,
     name <> "X-API-KEY" -> name <> "X-FROM" -> headers t !! name = None).
Proof.
  unfold headers. split; [|split].
  - rewrite lookup_insert_ne by discriminate. apply lookup_insert_eq.
  - apply lookup_insert_eq.
  - intros name H1 H2. rewrite !lookup_insert_ne by congruence. apply lookup_empty.
Qed.

(** C7, as amended.  [post] makes one request, to
    {baseUrl}/aggregator/v1/{chain}/nft{path} (BASE_URL and 'eth' when the
    config leaves them out), with exactly the headers X-API-KEY = apiKey
    and X-FROM = 'js_sdk'.  A response with code 'SUCCESS' yields its data;
    any other code fails with AggregatorApiException(msg, code, path); a
    failure of the client is passed on. *)
Theorem post_sends_and_unwraps (Req : Type) (path : string) (body : Req)
    (w : World) :
  let cfg := config (this w) in
  let target :=
    default BASE_URL (baseUrl cfg) +:+ "/aggregator/v1/"
      +:+ EVMChain_value (default ETH (chain cfg)) +:+ "/nft" +:+ path in
  let hdrs := headers (this w) in
  run_post path body w =
    (match http_post (client (this w)) Req target body hdrs with
     | Fulfilled response =>
         if String.eqb (code response) "SUCCESS"
         then Fulfilled (resp_data response)
         else Rejected (AggregatorApiException (msg response) (code response) path)
     | Rejected e => Rejected e
     end,
     {| this := this w; trace := trace w ++ [EvHttpPost Req target body hdrs] |})
  /\ hdrs !! "X-API-KEY" = Some (apiKey cfg)
  /\ hdrs !! "X-FROM" = Some "js_sdk"
  /\ (forall name : string,
        name <> "X-API-KEY" -> name <> "X-FROM" -> hdrs !! name = None).
Proof.
  intros cfg target hdrs. split; [|apply headers_fields].
  subst target hdrs cfg. rewrite <- url_path. run_js.
  destruct (http_post _ _ _ _ _) as [response|e]; cbn; [|reflexivity].
  destruct (String.eqb (code response) "SUCCESS"); reflexivity.
Qed.

Lemma preserves_ret {St A B} (proj : St -> B) (a : A) : preserves proj (ret a).
Proof. intros st. reflexivity. Qed.

Lemma preserves_throw {St A B} (proj : St -> B) (e : Exn) :
  preserves proj (throw e : M St A).
Proof. intros st. reflexivity. Qed.

Lemma preserves_get {St B} (proj : St -> B) : preserves proj (get : M St St).
Proof. intros st. reflexivity. Qed.

Lemma preserves_bind {St A A' B} (proj : St -> B) (c : M St A) (k : A -> M St A') :
  preserves proj c -> (forall a, preserves proj (k a)) -> preserves proj (bind c k).
Proof.
  intros Hc Hk st. unfold bind. specialize (Hc st).
  destruct (c st) as [[a|e] st']; cbn in Hc |- *.
  - now rewrite Hk.
  - exact Hc.
Qed.

Lemma preserves_try_catch {St A B} (proj : St -> B) (c : M St A) (h : Exn -> M St A) :
  preserves proj c -> (forall e, preserves proj (h e)) ->
  preserves proj (try_catch c h).
Proof.
  intros Hc Hh st. unfold try_catch. specialize (Hc st).
  destruct (c st) as [[a|e] st']; cbn in Hc |- *.
  - exact Hc.
  - now rewrite Hh.
Qed.

Lemma preserves_await {St A B} (proj : St -> B) (pr : Promise A) :
  preserves proj (await pr : M St A).
Proof. destruct pr; intros st; reflexivity. Qed.

Lemma preserves_complete {St A B} (proj : St -> B) (c : Completion A) :
  preserves proj (complete c : M St A).
Proof. destruct c; intros st; reflexivity. Qed.

Lemma preserves_emit (e : Event) : preserves this (emit e).
Proof. intros w. reflexivity. Qed.

Lemma preserves_lift {A} (c : M World A) :
  preserves this c -> preserves (fun fr => this (world fr)) (lift c).
Proof.
  intros Hc fr. unfold lift. specialize (Hc (world fr)).
  destruct (c (world fr)) as [r w']. exact Hc.
Qed.

Lemma preserves_get_params : preserves (fun fr => this (world fr)) get_params.
Proof. intros fr. reflexivity. Qed.

Lemma preserves_set_order_data (d : gmap string JsValue) :
  preserves (fun fr => this (world fr)) (set_order_data d).
Proof. intros fr. reflexivity. Qed.

(** Walks through a computation, one construct at a time. *)
Ltac preserves_step :=
  first
    [ apply preserves_bind; [|intros ?]
    | apply preserves_try_catch; [|intros ?]
    | apply preserves_lift
    | apply preserves_ret
    | apply preserves_throw
    | apply preserves_get
    | apply preserves_await
    | apply preserves_complete
    | apply preserves_emit
    | apply preserves_get_params
    | apply preserves_set_order_data
    | match goal with
      | |- preserves _ (if ?b then _ else _) => destruct b
      | |- preserves _ (match ?x with _ => _ end) => destruct x
      end ].

Lemma post_keeps_this (Req : Type) (path : string) (body : Req) :
  preserves this (post path body).
Proof. unfold post, client_post. repeat preserves_step. Qed.

(** No run of [handle] touches the three private fields. *)
Lemma handle_body_keeps_this : preserves (fun fr => this (world fr)) handle_body.
Proof.
  unfold handle_body, embed_v3, embed_v4, call_handler, split, encode_bulk,
    console_info.
  repeat (preserves_step || apply post_keeps_this).
Qed.

Lemma handle_keeps_this (p : PostOrderReq) (w : World) :
  this (world (snd (handle p w))) = this w.
Proof.
  unfold handle.
  pose proof (handle_body_keeps_this {| world := w; params := p |}) as H.
  destruct (handle_body _) as [c fr]. exact H.
Qed.

(** C8.  The constructor registers a handler for SeaportV15, LooksRareV2
    and X2Y2 exactly when the matching API-key config is supplied, and for
    no other kind; neither [handle] nor [post] changes the registry. *)
Theorem registry_fixed_at_construction (cl : HTTPClient)
    (cfg : ListingIndexerConfig) :
  let t := constructor cl cfg in
  handlers t !! SeaportV15 = SeaportV1D5Handler cl <$> openSeaApiKeyConfig cfg
  /\ handlers t !! LooksRareV2 = LooksRareV2Handler cl <$> looksRareApiKeyConfig cfg
  /\ handlers t !! X2Y2 = X2Y2Handler cl <$> x2y2ApiKeyConfig cfg
  /\ (is_Some (handlers t !! SeaportV15) <-> is_Some (openSeaApiKeyConfig cfg))
  /\ (is_Some (handlers t !! LooksRareV2) <-> is_Some (looksRareApiKeyConfig cfg))
  /\ (is_Some (handlers t !! X2Y2) <-> is_Some (x2y2ApiKeyConfig cfg))
  /\ (forall k : OrderKind,
        k <> SeaportV15 -> k <> LooksRareV2 -> k <> X2Y2 ->
        handlers t !! k = None)
  /\ (forall (p : PostOrderReq) (w : World),
        handlers (this (world (snd (handle p w)))) = handlers (this w))
  /\ (forall (Req : Type) (path : string) (body : Req) (w : World),
        handlers (this (snd (run_post path body w))) = handlers (this w)).
Proof.
  intros t.
  assert (H1 : handlers t !! SeaportV15 = SeaportV1D5Handler cl <$> openSeaApiKeyConfig cfg).
  { subst t. unfold constructor, register. cbn [handlers].
    destruct (openSeaApiKeyConfig cfg), (looksRareApiKeyConfig cfg),
      (x2y2ApiKeyConfig cfg); cbn [fmap option_fmap option_map];
      rewrite ?lookup_insert_ne by discriminate;
      rewrite ?lookup_insert_eq, ?lookup_empty; reflexivity. }
  assert (H2 : handlers t !! LooksRareV2 = LooksRareV2Handler cl <$> looksRareApiKeyConfig cfg).
  { subst t. unfold constructor, register. cbn [handlers].
    destruct (openSeaApiKeyConfig cfg), (looksRareApiKeyConfig cfg),
      (x2y2ApiKeyConfig cfg); cbn [fmap option_fmap option_map];
      rewrite ?lookup_insert_ne by discriminate;
      rewrite ?lookup_insert_eq, ?lookup_empty; reflexivity. }
  assert (H3 : handlers t !! X2Y2 = X2Y2Handler cl <$> x2y2ApiKeyConfig cfg).
  { subst t. unfold constructor, register. cbn [handlers].
    destruct (openSeaApiKeyConfig cfg), (looksRareApiKeyConfig cfg),
      (x2y2ApiKeyConfig cfg); cbn [fmap option_fmap option_map];
      rewrite ?lookup_insert_ne by discriminate;
      rewrite ?lookup_insert_eq, ?lookup_empty; reflexivity. }
  repeat split; try assumption.
  - rewrite H1. apply fmap_is_Some.
  - rewrite H1. apply fmap_is_Some.
  - rewrite H2. apply fmap_is_Some.
  - rewrite H2. apply fmap_is_Some.
  - rewrite H3. apply fmap_is_Some.
  - rewrite H3. apply fmap_is_Some.
  - intros k Ha Hb Hc. subst t. unfold constructor, register. cbn [handlers].
    destruct (openSeaApiKeyConfig cfg), (looksRareApiKeyConfig cfg),
      (x2y2ApiKeyConfig cfg);
      rewrite ?lookup_insert_ne by congruence; apply lookup_empty.
  - intros p w. now rewrite handle_keeps_this.
  - intros Req path body w. unfold run_post.
    pose proof (post_keeps_this Req path body w) as Hp.
    destruct (post path body w) as [c w']. cbn in Hp |- *. now rewrite Hp.
Qed.

End DispatcherFacts.

(** * Properties of the listing indexer's reports *)

Section IndexerFacts.
Context {imports : Imports}.
Variable env : IndexerEnv.

Lemma postListingOrder_keeps_this (p : PostOrderReq) :
  preserves this (postListingOrder p).
Proof.
  intros w. unfold postListingOrder.
  pose proof (handle_keeps_this p w) as H.
  destruct (handle p w) as [pr fr]. cbn in H.
  rewrite preserves_await. exact H.
Qed.

Lemma list_item_keeps_this (o : Order) : preserves this (list_item env o).
Proof.
  unfold list_item. apply preserves_bind.
  - apply preserves_await.
  - intros sig. apply postListingOrder_keeps_this.
Qed.

(** An order of a bad kind never gets listed. *)
Lemma list_item_bad_kind (o : Order) (w : World) :
  bad_kind (this w) o = true ->
  exists e w', list_item env o w = (Throw e, w').
Proof.
  unfold bad_kind. intros Hbad.
  destruct (decide (kind o = Blur)) as [|Hk]; [discriminate|].
  destruct (handlers (this w) !! kind o) eqn:Hreg; [discriminate|].
  unfold list_item, bind.
  destruct (wallet_sign env o) as [sig|e]; cbn; [|eauto].
  unfold postListingOrder, handle.
  rewrite handle_body_unregistered by assumption. cbn. eauto.
Qed.

(** C10.  [prepareListing([])] fails with the InvalidParamError whose
    message is "The param 'nfts' is invalid. nfts should not be empty",
    and the world is as it was: nothing was queried or sent. *)
Theorem prepareListing_empty_fails (w : World) :
  prepareListing env [] w
    = (Throw (InvalidParamError "nfts" "nfts should not be empty"), w)
  /\ async (fst (prepareListing env [] w))
       = Rejected (invalidParamError "nfts" "nfts should not be empty")
  /\ exn_message (invalidParamError "nfts" "nfts should not be empty")
       = "The param 'nfts' is invalid. nfts should not be empty".
Proof. repeat split. Qed.

End IndexerFacts.

(** * Further properties of [handle] *)

Section DispatcherMore.
Context {imports : Imports}.

(** Where [handle] stands once the handler has been called with the order
    of [p']. *)
#[local] Abbreviation called h p w p' :=
  (match handler_handle h (order p') with
   | Normal _ => Fulfilled JUndefined
   | Throw e => Rejected e
   end,
   {| world := {| this := this w;
                  trace := trace w ++ [EvHandlerCall (kind (order p)) (order p')] |};
      params := p' |}).

#[local] Abbreviation refused param reason p w :=
  (Rejected (InvalidParamError param reason), {| world := w; params := p |}).

Lemma put_data_same (p : PostOrderReq) : put_data p (data (order p)) = p.
Proof. destruct p as [[k d] sg b x]. reflexivity. Qed.

(** Every path of the non-Blur part of [handle], in one equation. *)
Lemma handle_paths (p : PostOrderReq) (w : World) :
  kind (order p) <> Blur ->
  handle p w =
    match handlers (this w) !! kind (order p) with
    | None =>
        refused "order.kind"
          ("unsupported orderKind " +:+ OrderKind_value (kind (order p))) p w
    | Some h =>
        if String.eqb (version (extraArgs p)) "v3"
           || String.eqb (version (extraArgs p)) "v4"
        then
          match truthy (signature p) with
          | None => called h p w p
          | Some sig =>
              match splitSignature sig with
              | None => refused "signature" ("invalid signature " +:+ sig) p w
              | Some parts =>
                  match (if String.eqb (version (extraArgs p)) "v3" then None
                         else is_seaport_bulk (bulkData p)) with
                  | None =>
                      called h p w
                        (put_data p (merge_signature (data (order p)) sig parts))
                  | Some proof =>
                      match encodeBulkOrderProofAndSignature
                              (orderIndex proof) (merkleProof proof) sig with
                      | Some packed =>
                          called h p w
                            (put_data p (<["signature" := JStr packed]> (data (order p))))
                      | None =>
                          refused "signature" ("invalid signature " +:+ sig) p w
                      end
                  end
              end
          end
        else
          refused "extraArgs.version"
            ("unsupported version " +:+ version (extraArgs p)) p w
    end.
Proof.
  intros Hk. destruct p as [[k d] sg b [ver]]. cbn in Hk.
  run_js. rewrite decide_False by exact Hk. js_simpl.
  destruct (handlers (this w) !! k) as [h|]; [|reflexivity].
  destruct (String.eqb ver "v3"); cbn [orb].
  - destruct (truthy sg) as [sig|]; js_simpl.
    + destruct (splitSignature sig) as [parts|]; js_simpl.
      * destruct (handler_handle h _); reflexivity.
      * reflexivity.
    + destruct (handler_handle h _); reflexivity.
  - destruct (String.eqb ver "v4"); [|reflexivity].
    destruct (truthy sg) as [sig|]; js_simpl.
    + destruct (splitSignature sig) as [parts|]; js_simpl.
      * destruct (is_seaport_bulk b) as [proof|]; js_simpl.
        -- destruct (encodeBulkOrderProofAndSignature _ _ _) as [packed|]; js_simpl.
           ++ destruct (handler_handle h _); reflexivity.
           ++ reflexivity.
        -- destruct (handler_handle h _); reflexivity.
      * reflexivity.
    + destruct (handler_handle h _); reflexivity.
Qed.

Lemma handle_blur_frame (p : PostOrderReq) (w : World) :
  kind (order p) = Blur -> params (snd (handle p w)) = p.
Proof.
  intros Hk. run_js. rewrite decide_True by exact Hk.
  destruct (http_post _ _ _ _ _) as [response | e]; cbn; [|reflexivity].
  destruct (String.eqb (code response) "SUCCESS"); reflexivity.
Qed.

Lemma merge_signature_again (d : gmap string JsValue) (sig : string)
    (parts : Signature) :
  merge_signature (merge_signature d sig parts) sig parts
    = merge_signature d sig parts.
Proof.
  apply map_eq. intros key. unfold merge_signature.
  rewrite !lookup_insert. repeat case_decide; reflexivity.
Qed.

Lemma constructor_registry (cl : HTTPClient) (cfg : ListingIndexerConfig)
    (k : OrderKind) :
  handlers (constructor cl cfg) !! k =
    match k with
    | SeaportV15 => SeaportV1D5Handler cl <$> openSeaApiKeyConfig cfg
    | LooksRareV2 => LooksRareV2Handler cl <$> looksRareApiKeyConfig cfg
    | X2Y2 => X2Y2Handler cl <$> x2y2ApiKeyConfig cfg
    | _ => None
    end.
Proof.
  unfold constructor, register. cbn [handlers].
  destruct (openSeaApiKeyConfig cfg), (looksRareApiKeyConfig cfg),
    (x2y2ApiKeyConfig cfg), k; cbn [fmap option_fmap option_map];
    rewrite ?lookup_insert_ne by discriminate;
    rewrite ?lookup_insert_eq, ?lookup_empty; reflexivity.
Qed.

(** Without a usable signature (absent, or the empty string) both version
    branches skip the embedding altogether: the handler is called with the
    order exactly as it came, bulk data is not looked at, and the request
    object is unchanged. *)
Theorem handle_without_signature (p : PostOrderReq) (w : World)
    (h : IPostOrderHandler) :
  kind (order p) <> Blur ->
  handlers (this w) !! kind (order p) = Some h ->
  version (extraArgs p) = "v3" \/ version (extraArgs p) = "v4" ->
  signature p = None \/ signature p = Some "" ->
  handle p w =
    (match handler_handle h (order p) with
     | Normal _ => Fulfilled JUndefined
     | Throw e => Rejected e
     end,
     {| world := {| this := this w;
                    trace := trace w ++ [EvHandlerCall (kind (order p)) (order p)] |};
        params := p |}).
Proof.
  intros Hk Hreg Hv Hsig.
  assert (Hfalsy : truthy (signature p) = None)
    by (destruct Hsig as [-> | ->]; reflexivity).
  rewrite (handle_paths p w Hk), Hreg, Hfalsy.
  destruct Hv as [-> | ->]; reflexivity.
Qed.

(** [handle] writes to [order.data] only: the kind of the order, the
    signature, the bulk data and the extra arguments of the request are the
    same after every run. *)
Theorem handle_keeps_request_shape (p : PostOrderReq) (w : World) :
  let p' := params (snd (handle p w)) in
  kind (order p') = kind (order p)
  /\ signature p' = signature p
  /\ bulkData p' = bulkData p
  /\ extraArgs p' = extraArgs p.
Proof.
  intros p'. subst p'.
  destruct (decide (kind (order p) = Blur)) as [Hk|Hk].
  - rewrite (handle_blur_frame p w Hk). repeat split.
  - rewrite (handle_paths p w Hk). repeat case_match; repeat split.
Qed.

(** Whatever the run, [handle] changes no key of [order.data] other than
    signature, v, r and s: the marketplace payload survives the embedding. *)
Theorem handle_keeps_other_fields (p : PostOrderReq) (w : World) (key : string) :
  key <> "signature" -> key <> "v" -> key <> "r" -> key <> "s" ->
  data (order (params (snd (handle p w)))) !! key = data (order p) !! key.
Proof.
  intros H1 H2 H3 H4.
  destruct (decide (kind (order p) = Blur)) as [Hk|Hk].
  - rewrite (handle_blur_frame p w Hk). reflexivity.
  - rewrite (handle_paths p w Hk).
    repeat case_match; js_simpl; unfold put_data, merge_signature; js_simpl;
      rewrite ?lookup_insert_ne by congruence; reflexivity.
Qed.

(** A rejected dispatch of a non-Blur order has one of two origins.  Either
    the dispatcher refused the request itself, with an InvalidParamError on
    'order.kind', 'signature' or 'extraArgs.version', and then nothing was
    called and nothing was written; or the handler threw while being
    called, and the rejection is the handler's own error. *)
Theorem handle_rejection_origin (p : PostOrderReq) (w : World) (e : Exn) :
  kind (order p) <> Blur ->
  fst (handle p w) = Rejected e ->
  (snd (handle p w) = {| world := w; params := p |}
   /\ exists param reason : string,
        e = InvalidParamError param reason
        /\ (param = "order.kind" \/ param = "signature"
            \/ param = "extraArgs.version"))
  \/
  (exists h : IPostOrderHandler,
     let p' := params (snd (handle p w)) in
     handlers (this w) !! kind (order p) = Some h
     /\ handler_handle h (order p') = Throw e
     /\ trace (world (snd (handle p w)))
          = trace w ++ [EvHandlerCall (kind (order p)) (order p')]).
Proof.
  intros Hk. rewrite (handle_paths p w Hk).
  destruct (handlers (this w) !! kind (order p)) as [h|] eqn:Hreg.
  2:{ intros [= <-]. left. split; [reflexivity|]. eauto 6. }
  repeat case_match; js_simpl; intros Hrej; try discriminate;
    injection Hrej as <-;
    solve [ left; split; [reflexivity|]; eauto 7
          | right; exists h; js_simpl; auto ].
Qed.

(** A fulfilled dispatch of a non-Blur order always carries [undefined],
    and it means exactly this: a handler is registered for the kind, the
    version is 'v3' or 'v4', and that handler was called once, with the
    order the request now holds. *)
Theorem handle_fulfilment (p : PostOrderReq) (w : World) (v : JsValue) :
  kind (order p) <> Blur ->
  fst (handle p w) = Fulfilled v ->
  v = JUndefined
  /\ (version (extraArgs p) = "v3" \/ version (extraArgs p) = "v4")
  /\ exists h : IPostOrderHandler,
       let p' := params (snd (handle p w)) in
       handlers (this w) !! kind (order p) = Some h
       /\ (exists pr, handler_handle h (order p') = Normal pr)
       /\ world (snd (handle p w))
            = {| this := this w;
                 trace := trace w ++ [EvHandlerCall (kind (order p)) (order p')] |}.
Proof.
  intros Hk. rewrite (handle_paths p w Hk).
  destruct (handlers (this w) !! kind (order p)) as [h|] eqn:Hreg;
    [|discriminate].
  destruct (String.eqb (version (extraArgs p)) "v3") eqn:H3;
    [apply String.eqb_eq in H3
    |destruct (String.eqb (version (extraArgs p)) "v4") eqn:H4;
       [apply String.eqb_eq in H4|]];
    cbn [orb]; try discriminate.
  all: repeat case_match; js_simpl; intros Hful; try discriminate;
    injection Hful as <-;
    (split; [reflexivity|]); (split; [auto|]); exists h; js_simpl; eauto.
Qed.

(** Dispatching again the request object that [handle] left behind does
    not change it any further: the embedding reads the signature from
    [params.signature] and overwrites the same keys with the same values. *)
Theorem handle_again_same_request (p : PostOrderReq) (w : World) :
  let fr := snd (handle p w) in
  params (snd (handle (params fr) (world fr))) = params fr.
Proof.
  intros fr. subst fr.
  destruct (decide (kind (order p) = Blur)) as [Hk|Hk].
  - rewrite (handle_blur_frame p w Hk). apply handle_blur_frame. exact Hk.
  - rewrite (handle_paths p w Hk).
    destruct (handlers (this w) !! kind (order p)) as [h|] eqn:Hreg; js_simpl.
    2:{ rewrite (handle_paths p w Hk), Hreg. reflexivity. }
    destruct (String.eqb (version (extraArgs p)) "v3") eqn:H3; cbn [orb];
      [|destruct (String.eqb (version (extraArgs p)) "v4") eqn:H4].
    3:{ js_simpl. rewrite (handle_paths p w Hk), Hreg, H3, H4. reflexivity. }
    all: destruct (truthy (signature p)) as [sig|] eqn:Hsig.
    all: try destruct (splitSignature sig) as [parts|] eqn:Hsplit.
    all: try destruct (is_seaport_bulk (bulkData p)) as [proof|] eqn:Hbulk.
    all: try destruct (encodeBulkOrderProofAndSignature _ _ _) as [packed|] eqn:Henc.
    all: js_simpl.
    all: match goal with
         | |- context [handle ?q ?w'] =>
             rewrite (handle_paths q w' ltac:(exact Hk))
         end;
         unfold put_data; js_simpl;
         rewrite ?Hreg, ?H3, ?H4; cbn [orb]; rewrite ?Hsig, ?Hsplit; js_simpl;
         rewrite ?Hbulk, ?Henc; js_simpl;
         rewrite ?merge_signature_again, ?insert_insert_eq; reflexivity.
Qed.

(** A dispatcher that was constructed without the API-key config of a
    marketplace refuses every order of that marketplace's kind, and one of
    any kind outside the three marketplaces and Blur, whatever version,
    signature or bulk data the request carries. *)
Theorem unconfigured_kind_refused (cl : HTTPClient) (cfg : ListingIndexerConfig)
    (tr : list Event) (p : PostOrderReq) :
  kind (order p) <> Blur ->
  (kind (order p) = SeaportV15 -> openSeaApiKeyConfig cfg = None) ->
  (kind (order p) = LooksRareV2 -> looksRareApiKeyConfig cfg = None) ->
  (kind (order p) = X2Y2 -> x2y2ApiKeyConfig cfg = None) ->
  let w := {| this := constructor cl cfg; trace := tr |} in
  handle p w =
    (Rejected (InvalidParamError "order.kind"
                 ("unsupported orderKind " +:+ OrderKind_value (kind (order p)))),
     {| world := w; params := p |}).
Proof.
  intros Hk Hs Hl Hx w.
  assert (Hnone : handlers (this w) !! kind (order p) = None).
  { subst w. cbn [this]. rewrite constructor_registry.
    destruct (kind (order p));
      rewrite ?Hs, ?Hl, ?Hx by reflexivity; reflexivity. }
  rewrite (handle_paths p w Hk), Hnone. reflexivity.
Qed.

(** For a non-Blur order the dispatch depends on the dispatcher only
    through the handler registered for the order's kind: the client, the
    API key, the base URL, the chain and the other registrations play no
    part.  Two dispatchers that agree on that one entry settle alike,
    leave the same request behind and make the same calls. *)
Theorem handle_reads_only_its_handler (p : PostOrderReq) (w1 w2 : World) :
  kind (order p) <> Blur ->
  handlers (this w1) !! kind (order p) = handlers (this w2) !! kind (order p) ->
  fst (handle p w1) = fst (handle p w2)
  /\ params (snd (handle p w1)) = params (snd (handle p w2))
  /\ exists calls : list Event,
       trace (world (snd (handle p w1))) = trace w1 ++ calls
       /\ trace (world (snd (handle p w2))) = trace w2 ++ calls
       /\ forall (P : Type) (u : string) (body : P) (hdrs : gmap string string),
            EvHttpPost P u body hdrs ∉ calls.
Proof.
  intros Hk Hsame.
  rewrite (handle_paths p w1 Hk), (handle_paths p w2 Hk), Hsame.
  repeat case_match; js_simpl; (split; [reflexivity|]); (split; [reflexivity|]).
  all: first
    [ eexists [_]; split; [reflexivity|]; split; [reflexivity|];
      intros P u body hdrs Hin; apply list_elem_of_singleton in Hin; discriminate
    | exists []; rewrite !app_nil_r; split; [reflexivity|]; split; [reflexivity|];
      intros P u body hdrs Hin; inversion Hin ].
Qed.

End DispatcherMore.

(** * The batch report *)

Section IndexerReport.
Context {imports : Imports}.
Variable env : IndexerEnv.
Variable approvals : ApprovalEnv.

(** What one turn of the loop runs inside its catch. *)
#[local] Abbreviation attempt o approval :=
  (await approval ;; list_item env o ;; ret true).

Lemma attempt_keeps_this (o : Order) (approval : Promise unit) :
  preserves this (attempt o approval).
Proof.
  apply preserves_bind; [apply preserves_await|]. intros _.
  apply preserves_bind; [apply list_item_keeps_this|]. intros _.
  apply preserves_ret.
Qed.

(** One turn of the loop ends normally whatever the item did, and its
    verdict is the item's own outcome. *)
Lemma turn_never_throws (o : Order) (approval : Promise unit) (w : World) :
  exists (ok : bool) (w' : World),
    try_catch (attempt o approval) (fun _ => ret false) w = (Normal ok, w')
    /\ this w' = this w
    /\ ((exists e w1, attempt o approval w = (Throw e, w1)) -> ok = false)
    /\ ((exists v w1, attempt o approval w = (Normal v, w1)) -> ok = true).
Proof.
  unfold try_catch.
  pose proof (attempt_keeps_this o approval w) as Hthis.
  destruct (attempt o approval w) as [[v|e] w1] eqn:Hrun; cbn in Hthis.
  - assert (v = true) as ->.
    { revert Hrun. unfold bind, ret.
      destruct (await approval w) as [[?|?] ?]; [|discriminate].
      destruct (list_item env o _) as [[?|?] ?]; [|discriminate].
      now intros [= <- _]. }
    exists true, w1. repeat split; [exact Hthis|].
    intros (e & w2 & H). discriminate.
  - exists false, w1. repeat split; [exact Hthis|].
    intros (v & w2 & H). discriminate.
Qed.

(** The loop: it ends normally, every index of the batch lands in one of
    the two arrays, an item that fails under this dispatcher is recorded
    as failed and one that comes back normally as listed. *)
Lemma listingWithPolicy_report (items : list (Order * Promise unit)) :
  forall (i : nat) (successIndexes failIndexes : list nat) (w : World),
  exists successIndexes' failIndexes' w',
    listingWithPolicy env i items successIndexes failIndexes w
      = (Normal (successIndexes', failIndexes'), w')
    /\ successIndexes' ++ failIndexes'
         ≡ₚ successIndexes ++ failIndexes ++ seq i (length items)
    /\ (forall x : nat, x ∈ successIndexes -> x ∈ successIndexes')
    /\ (forall x : nat, x ∈ failIndexes -> x ∈ failIndexes')
    /\ (forall (j : nat) (o : Order) (approval : Promise unit),
          items !! j = Some (o, approval) ->
          (forall w1, this w1 = this w ->
             exists e w2, attempt o approval w1 = (Throw e, w2)) ->
          i + j ∈ failIndexes')
    /\ (forall (j : nat) (o : Order) (approval : Promise unit),
          items !! j = Some (o, approval) ->
          (forall w1, this w1 = this w ->
             exists v w2, attempt o approval w1 = (Normal v, w2)) ->
          i + j ∈ successIndexes').
Proof.
  induction items as [|[o approval] rest IH]; intros i succ fail w.
  - exists succ, fail, w. cbn. rewrite !app_nil_r.
    split; [done|]. split; [done|]. split; [done|]. split; [done|].
    split; intros j o' a Hj; discriminate.
  - destruct (turn_never_throws o approval w) as (ok & w1 & Hrun & Hthis & Hbad & Hgood).
    cbn [listingWithPolicy]. unfold bind at 1. rewrite Hrun.
    destruct ok.
    + destruct (IH (S i) (succ ++ [i]) fail w1)
        as (s' & f' & w' & Hloop & Hperm & Hs & Hf & Hfail & Hsucc).
      exists s', f', w'. split; [exact Hloop|].
      split; [rewrite Hperm; cbn [length seq]; solve_Permutation|].
      split; [intros x Hx; apply Hs, elem_of_app; now left|].
      split; [exact Hf|]. split.
      * intros [|j] o' a Hj Hthrow; cbn in Hj.
        -- injection Hj as <- <-. specialize (Hbad (Hthrow w eq_refl)). discriminate.
        -- replace (i + S j) with (S i + j) by lia.
           apply (Hfail j o' a Hj). intros w2 Hw2. apply Hthrow. congruence.
      * intros [|j] o' a Hj Hnormal; cbn in Hj.
        -- rewrite Nat.add_0_r. apply Hs, elem_of_app. right.
           apply list_elem_of_singleton. reflexivity.
        -- replace (i + S j) with (S i + j) by lia.
           apply (Hsucc j o' a Hj). intros w2 Hw2. apply Hnormal. congruence.
    + destruct (IH (S i) succ (fail ++ [i]) w1)
        as (s' & f' & w' & Hloop & Hperm & Hs & Hf & Hfail & Hsucc).
      exists s', f', w'. split; [exact Hloop|].
      split; [rewrite Hperm; cbn [length seq]; solve_Permutation|].
      split; [exact Hs|].
      split; [intros x Hx; apply Hf, elem_of_app; now left|]. split.
      * intros [|j] o' a Hj Hthrow; cbn in Hj.
        -- rewrite Nat.add_0_r. apply Hf, elem_of_app. right.
           apply list_elem_of_singleton. reflexivity.
        -- replace (i + S j) with (S i + j) by lia.
           apply (Hfail j o' a Hj). intros w2 Hw2. apply Hthrow. congruence.
      * intros [|j] o' a Hj Hnormal; cbn in Hj.
        -- injection Hj as <- <-. specialize (Hgood (Hnormal w eq_refl)). discriminate.
        -- replace (i + S j) with (S i + j) by lia.
           apply (Hsucc j o' a Hj). intros w2 Hw2. apply Hnormal. congruence.
Qed.

Lemma lookup_map {A B} (f : A -> B) (l : list A) (j : nat) :
  List.map f l !! j = f <$> (l !! j).
Proof.
  revert j. induction l as [|x l IH]; intros [|j]; cbn; try reflexivity.
  apply IH.
Qed.

Lemma attempt_bad_kind (o : Order) (approval : Promise unit) (w : World) :
  bad_kind (this w) o = true ->
  exists e w', attempt o approval w = (Throw e, w').
Proof.
  intros Hbad. unfold bind.
  destruct approval as [[]|e]; cbn; [|eauto].
  destruct (list_item_bad_kind env o w Hbad) as (e & w' & ->). eauto.
Qed.

Lemma attempt_approval_rejected (o : Order) (e : Exn) (w : World) :
  attempt o (Rejected e : Promise unit) w = (Throw e, w).
Proof. reflexivity. Qed.

(** An order that reaches a handler is listed as far as the indexer can
    tell, whatever promise the handler returns. *)
Lemma attempt_reaches_handler (o : Order) (w : World) (h : IPostOrderHandler)
    (sig : string) (parts : Signature) :
  kind o <> Blur ->
  handlers (this w) !! kind o = Some h ->
  (forall o', exists pr, handler_handle h o' = Normal pr) ->
  wallet_sign env o = Fulfilled sig ->
  splitSignature sig = Some parts ->
  post_version env = "v3" \/ post_version env = "v4" ->
  exists v w', attempt o (Fulfilled tt : Promise unit) w = (Normal v, w').
Proof.
  intros Hk Hreg Hcall Hsign Hsplit Hv.
  unfold list_item, postListingOrder, bind. cbn [await ret].
  rewrite Hsign. cbn [await ret].
  rewrite handle_paths by exact Hk. js_simpl. rewrite Hreg.
  assert (Hver : String.eqb (post_version env) "v3"
                 || String.eqb (post_version env) "v4" = true).
  { destruct Hv as [-> | ->]; reflexivity. }
  rewrite Hver.
  destruct (truthy (Some sig)) as [sig'|] eqn:Htruthy.
  - assert (sig' = sig) as ->.
    { unfold truthy in Htruthy. destruct (String.eqb sig ""); congruence. }
    rewrite Hsplit.
    destruct (String.eqb (post_version env) "v3"); cbn [is_seaport_bulk];
      match goal with
      | |- context [handler_handle h ?x] => destruct (Hcall x) as [pr ->]
      end; cbn; eauto.
  - destruct (Hcall o) as [pr ->]. cbn. eauto.
Qed.

(** What does hold of the report: once the prepare step has gone through,
    [bulkListing] ends normally; every index of the batch is in exactly
    one of the two arrays, once; an order of a bad kind and an order whose
    approval transaction is turned down are recorded as failed. *)
Lemma bulkListing_report (orders : list Order) (policy : ApprovalPolicy)
    (w w1 : World) (steps : JsValue) :
  prepareListing env (List.map (listed_nft approvals) orders) w = (Normal steps, w1) ->
  exists successIndexes failIndexes w',
    bulkListing env approvals orders policy w
      = (Normal (successIndexes, failIndexes), w')
    /\ (forall i : nat,
          (i ∈ successIndexes \/ i ∈ failIndexes) <-> i < length orders)
    /\ (forall i : nat, i ∈ successIndexes -> i ∈ failIndexes -> False)
    /\ NoDup successIndexes
    /\ NoDup failIndexes
    /\ (forall (i : nat) (o : Order),
          orders !! i = Some o -> bad_kind (this w) o = true -> i ∈ failIndexes)
    /\ (forall (i : nat) (o : Order) (e : Exn),
          orders !! i = Some o ->
          requires_approval approvals steps o = true ->
          autoApprove policy = true ->
          submit_approval approvals o = Rejected e ->
          i ∈ failIndexes).
Proof.
  intros Hprep.
  assert (Hthis : this w1 = this w).
  { destruct (List.map _ orders) as [|nft nfts]; [discriminate|].
    cbn [prepareListing] in Hprep.
    pose proof (post_keeps_this _ (listing_query_path env) (nft :: nfts) w) as H.
    rewrite Hprep in H. exact H. }
  destruct (listingWithPolicy_report (approveWithPolicy approvals steps policy orders)
              0 [] [] w1)
    as (s & f & w' & Hrun & Hperm & _ & _ & Hfail & _).
  exists s, f, w'.
  assert (Hlen : length (approveWithPolicy approvals steps policy orders) = length orders)
    by apply length_map.
  rewrite Hlen in Hperm. cbn [app] in Hperm.
  assert (Hnodup : NoDup (s ++ f)) by (rewrite Hperm; apply NoDup_seq).
  apply NoDup_app in Hnodup as (Hs & Hdisj & Hf).
  split; [|split; [|split; [|split; [|split; [|split]]]]].
  - unfold bulkListing, bind. rewrite Hprep. exact Hrun.
  - intros i. rewrite <- elem_of_app, Hperm, elem_of_seq. lia.
  - intros i Hi. exact (Hdisj i Hi).
  - exact Hs.
  - exact Hf.
  - intros i o Hi Hbad.
    apply (Hfail i o _ ltac:(unfold approveWithPolicy; rewrite lookup_map, Hi; reflexivity)).
    intros w2 Hw2. apply attempt_bad_kind. now rewrite Hw2, Hthis.
  - intros i o e Hi Hreq Hauto Hrej.
    apply (Hfail i o _ ltac:(unfold approveWithPolicy; rewrite lookup_map, Hi; reflexivity)).
    intros w2 Hw2. rewrite Hreq, Hauto, Hrej. cbn [andb].
    rewrite attempt_approval_rejected. eauto.
Qed.

(** The call as a whole fails exactly where the prepare step does. *)
Lemma bulkListing_whole_call_failure (orders : list Order)
    (policy : ApprovalPolicy) (w w1 : World) (e : Exn) :
  prepareListing env (List.map (listed_nft approvals) orders) w = (Throw e, w1) ->
  bulkListing env approvals orders policy w = (Throw e, w1).
Proof. intros Hprep. unfold bulkListing, bind. now rewrite Hprep. Qed.

(** C2, on the code.  An order whose post the marketplace refuses is
    reported as listed: its handler's promise rejects, the dispatcher has
    let go of that promise, [postListingOrder] comes back normally, and
    the index of the order is put in successIndexes and not in
    failIndexes. *)
Theorem bulkListing_reports_refused_post_as_listed (orders : list Order)
    (policy : ApprovalPolicy) (w w1 : World) (steps : JsValue)
    (i : nat) (o : Order) (h : IPostOrderHandler) (e : Exn)
    (sig : string) (parts : Signature) :
  prepareListing env (List.map (listed_nft approvals) orders) w = (Normal steps, w1) ->
  orders !! i = Some o ->
  kind o <> Blur ->
  handlers (this w) !! kind o = Some h ->
  (forall o', handler_handle h o' = Normal (Rejected e)) ->
  wallet_sign env o = Fulfilled sig ->
  splitSignature sig = Some parts ->
  post_version env = "v3" \/ post_version env = "v4" ->
  (if requires_approval approvals steps o && autoApprove policy
   then submit_approval approvals o else Fulfilled tt) = Fulfilled tt ->
  exists successIndexes failIndexes w',
    bulkListing env approvals orders policy w
      = (Normal (successIndexes, failIndexes), w')
    /\ i ∈ successIndexes
    /\ i ∉ failIndexes.
Proof.
  intros Hprep Hi Hk Hreg Hrej Hsign Hsplit Hv Happr.
  assert (Hthis : this w1 = this w).
  { destruct (List.map _ orders) as [|nft nfts]; [discriminate|].
    cbn [prepareListing] in Hprep.
    pose proof (post_keeps_this _ (listing_query_path env) (nft :: nfts) w) as H.
    rewrite Hprep in H. exact H. }
  destruct (listingWithPolicy_report (approveWithPolicy approvals steps policy orders)
              0 [] [] w1)
    as (s & f & w' & Hrun & Hperm & _ & _ & _ & Hsucc).
  exists s, f, w'.
  assert (Hin : i ∈ s).
  { apply (Hsucc i o _ ltac:(unfold approveWithPolicy; rewrite lookup_map, Hi; reflexivity)).
    intros w2 Hw2. rewrite Happr.
    apply (attempt_reaches_handler o w2 h sig parts); try assumption.
    - now rewrite Hw2, Hthis.
    - intros o'. rewrite Hrej. eauto. }
  split; [unfold bulkListing, bind; rewrite Hprep; exact Hrun|].
  split; [exact Hin|].
  assert (Hnodup : NoDup (s ++ f)).
  { rewrite Hperm. cbn [app]. apply NoDup_seq. }
  apply NoDup_app in Hnodup as (_ & Hdisj & _). exact (Hdisj i Hin).
Qed.

End IndexerReport.

(** * The theorems at concrete requests *)

Section Examples.
Import Sample.

Lemma handle_blur_posts_to_backend_witness :
  let p := req Blur "v9" (Some "0x1234") (Some seaport_bulk) in
  kind (order p) = Blur /\
  handle p w0 =
    (Fulfilled (JObj [("message", JStr "blur")]),
     {| world :=
          {| this := this w0;
             trace :=
               [EvHttpPost PostOrderReq
                  "https://data-api.nftgo.io/aggregator/v1/eth/nft/post-order/v1"
                  p (headers (this w0));
                EvConsoleInfo "res" JNull] |};
        params := p |}).
Proof.
  split; [reflexivity|].
  exact (handle_blur_posts_to_backend
           (req Blur "v9" (Some "0x1234") (Some seaport_bulk)) w0 eq_refl).
Defined.

Lemma handle_unregistered_kind_witness :
  let p := req LooksRareV2 "v3" (Some sig65) None in
  kind (order p) <> Blur /\
  handlers (this w0) !! kind (order p) = None /\
  handle p w0 =
    (Rejected (InvalidParamError "order.kind" "unsupported orderKind looks-rare-v2"),
     {| world := w0; params := p |}).
Proof.
  split; [discriminate|]. split; [reflexivity|].
  apply (handle_unregistered_kind (req LooksRareV2 "v3" (Some sig65) None) w0);
    [discriminate | reflexivity].
Defined.

Lemma handle_unsupported_version_witness :
  let p := req SeaportV15 "v9" (Some sig65) None in
  kind (order p) <> Blur /\
  handlers (this w0) !! kind (order p) = Some (marketplace "opensea" backend "os-key") /\
  version (extraArgs p) <> "v3" /\
  version (extraArgs p) <> "v4" /\
  handle p w0 =
    (Rejected (InvalidParamError "extraArgs.version" "unsupported version v9"),
     {| world := w0; params := p |}).
Proof.
  split; [discriminate|]. split; [reflexivity|].
  split; [discriminate|]. split; [discriminate|].
  apply (handle_unsupported_version (req SeaportV15 "v9" (Some sig65) None) w0
           (marketplace "opensea" backend "os-key"));
    [discriminate | reflexivity | discriminate | discriminate].
Defined.

Lemma handle_v3_embeds_signature_witness :
  let p := req SeaportV15 "v3" (Some sig65) None in
  let h := marketplace "opensea" backend "os-key" in
  let p' :=
    put_data p
      (merge_signature ∅ sig65
         {| sig_v := 27;
            sig_r := "0x" +:+ String.concat "" (List.repeat "11" 32);
            sig_s := "0x" +:+ String.concat "" (List.repeat "22" 32) |}) in
  version (extraArgs p) = "v3" /\
  kind (order p) <> Blur /\
  handlers (this w0) !! kind (order p) = Some h /\
  signature p = Some sig65 /\
  sig65 <> "" /\
  handle p w0 =
    (Fulfilled JUndefined,
     {| world := {| this := this w0; trace := [EvHandlerCall SeaportV15 (order p')] |};
        params := p' |}).
Proof.
  split; [reflexivity|]. split; [discriminate|]. split; [reflexivity|].
  split; [reflexivity|]. split; [discriminate|].
  exact (proj1 (handle_v3_embeds_signature
                  (req SeaportV15 "v3" (Some sig65) None) w0
                  (marketplace "opensea" backend "os-key") sig65
                  eq_refl ltac:(discriminate) eq_refl eq_refl ltac:(discriminate))).
Defined.

(** C3 as stated fails on the empty string: the signature is present, it
    is neither split nor merged, no error is raised although it would not
    split, and the handler is called with the order as it came. *)
Lemma handle_v3_empty_signature_counterexample :
  let p := req SeaportV15 "v3" (Some "") None in
  version (extraArgs p) = "v3" /\
  handlers (this w0) !! kind (order p) = Some (marketplace "opensea" backend "os-key") /\
  signature p = Some "" /\
  splitSignature "" = None /\
  handle p w0 =
    (Fulfilled JUndefined,
     {| world := {| this := this w0; trace := [EvHandlerCall SeaportV15 (order p)] |};
        params := p |}) /\
  data (order (params (snd (handle p w0)))) !! "signature" = None /\
  data (order (params (snd (handle p w0)))) !! "v" = None.
Proof. repeat split. Qed.

Lemma handle_v4_bulk_or_split_witness :
  let p := req SeaportV15 "v4" (Some sig65) (Some seaport_bulk) in
  let h := marketplace "opensea" backend "os-key" in
  let p' := put_data p (<["signature" := JStr (sig65 +:+ "aabb")]> ∅) in
  version (extraArgs p) = "v4" /\
  kind (order p) <> Blur /\
  handlers (this w0) !! kind (order p) = Some h /\
  signature p = Some sig65 /\
  sig65 <> "" /\
  bulkData p = Some seaport_bulk /\
  bulk_kind seaport_bulk = "seaport-v1.5" /\
  is_Some (splitSignature sig65) /\
  encodeBulkOrderProofAndSignature 1 ["0xaa"; "0xbb"] sig65 = Some (sig65 +:+ "aabb") /\
  handle p w0 =
    (Fulfilled JUndefined,
     {| world := {| this := this w0; trace := [EvHandlerCall SeaportV15 (order p')] |};
        params := p' |}).
Proof.
  split; [reflexivity|]. split; [discriminate|]. split; [reflexivity|].
  split; [reflexivity|]. split; [discriminate|]. split; [reflexivity|].
  split; [reflexivity|]. split; [eexists; reflexivity|]. split; [reflexivity|].
  exact (proj1 (handle_v4_bulk_or_split
                  (req SeaportV15 "v4" (Some sig65) (Some seaport_bulk)) w0 eq_refl)
           (marketplace "opensea" backend "os-key") sig65 seaport_bulk
           {| sig_v := 27;
              sig_r := "0x" +:+ String.concat "" (List.repeat "11" 32);
              sig_s := "0x" +:+ String.concat "" (List.repeat "22" 32) |}
           (sig65 +:+ "aabb")
           ltac:(discriminate) eq_refl eq_refl ltac:(discriminate) eq_refl eq_refl
           eq_refl eq_refl).
Defined.

(** C1 as stated fails on a signature that does not split: the request is
    'v4' with a signature and Seaport bulk data whose proof would encode,
    yet the dispatch fails and [order.data.signature] is never written. *)
Lemma handle_v4_bad_signature_counterexample :
  let p := req SeaportV15 "v4" (Some "0x1234") (Some seaport_bulk) in
  version (extraArgs p) = "v4" /\
  signature p = Some "0x1234" /\
  bulkData p = Some seaport_bulk /\
  bulk_kind seaport_bulk = "seaport-v1.5" /\
  encodeBulkOrderProofAndSignature 1 ["0xaa"; "0xbb"] "0x1234" = Some "0x1234aabb" /\
  handle p w0 =
    (Rejected (InvalidParamError "signature" "invalid signature 0x1234"),
     {| world := w0; params := p |}) /\
  data (order (params (snd (handle p w0)))) !! "signature" = None.
Proof. repeat split. Qed.

Lemma handle_drops_handler_rejection_witness :
  let p := req X2Y2 "v3" None None in
  let h := marketplace "x2y2" backend "" in
  kind (order p) <> Blur /\
  handlers (this w0) !! kind (order p) = Some h /\
  (version (extraArgs p) = "v3" \/ version (extraArgs p) = "v4") /\
  signature p = None /\
  handler_handle h (order p) = Normal (Rejected (ExternalError "x2y2: 401")) /\
  handle p w0 =
    (Fulfilled JUndefined,
     {| world := {| this := this w0; trace := [EvHandlerCall X2Y2 (order p)] |};
        params := p |}).
Proof.
  split; [discriminate|]. split; [reflexivity|]. split; [left; reflexivity|].
  split; [reflexivity|]. split; [reflexivity|].
  exact (handle_drops_handler_rejection (req X2Y2 "v3" None None) w0
           (marketplace "x2y2" backend "") (ExternalError "x2y2: 401")
           ltac:(discriminate) eq_refl (or_introl eq_refl) eq_refl eq_refl).
Defined.

(** C7 as stated fails on the X-FROM header: the request carries 'js_sdk',
    not 'sdk-tag'. *)
Lemma post_x_from_counterexample :
  exists (target : string) (hdrs : gmap string string),
    trace (snd (run_post "/post-order/v1" (req Blur "v3" None None) w0))
      = [EvHttpPost PostOrderReq target (req Blur "v3" None None) hdrs]
    /\ hdrs !! "X-FROM" = Some "js_sdk"
    /\ hdrs !! "X-FROM" <> Some "sdk-tag".
Proof.
  eexists _, _. split; [reflexivity|]. split; [reflexivity | discriminate].
Qed.

End Examples.

Section MoreExamples.
Import Sample.

Lemma handle_without_signature_witness :
  let p := req SeaportV15 "v4" (Some "") (Some seaport_bulk) in
  let h := marketplace "opensea" backend "os-key" in
  kind (order p) <> Blur /\
  handlers (this w0) !! kind (order p) = Some h /\
  (version (extraArgs p) = "v3" \/ version (extraArgs p) = "v4") /\
  (signature p = None \/ signature p = Some "") /\
  handle p w0 =
    (Fulfilled JUndefined,
     {| world := {| this := this w0; trace := [EvHandlerCall SeaportV15 (order p)] |};
        params := p |}).
Proof.
  split; [discriminate|]. split; [reflexivity|]. split; [right; reflexivity|].
  split; [right; reflexivity|].
  exact (handle_without_signature
           (req SeaportV15 "v4" (Some "") (Some seaport_bulk)) w0
           (marketplace "opensea" backend "os-key")
           ltac:(discriminate) eq_refl (or_intror eq_refl) (or_intror eq_refl)).
Defined.

Lemma handle_v4_bulk_failure_witness :
  let bulk := {| bulk_kind := "seaport-v1.5";
                 bulk_data := {| orderIndex := 0; merkleProof := [] |} |} in
  let p := req SeaportV15 "v4" (Some sig65) (Some bulk) in
  version (extraArgs p) = "v4" /\
  kind (order p) <> Blur /\
  handlers (this w0) !! kind (order p) = Some (marketplace "opensea" backend "os-key") /\
  signature p = Some sig65 /\
  sig65 <> "" /\
  bulkData p = Some bulk /\
  bulk_kind bulk = "seaport-v1.5" /\
  encodeBulkOrderProofAndSignature 0 [] sig65 = None /\
  handle p w0 =
    (Rejected (InvalidParamError "signature" ("invalid signature " +:+ sig65)),
     {| world := w0; params := p |}).
Proof.
  split; [reflexivity|]. split; [discriminate|]. split; [reflexivity|].
  split; [reflexivity|]. split; [discriminate|]. split; [reflexivity|].
  split; [reflexivity|]. split; [reflexivity|].
  exact (handle_v4_bulk_failure
           (req SeaportV15 "v4" (Some sig65)
              (Some {| bulk_kind := "seaport-v1.5";
                       bulk_data := {| orderIndex := 0; merkleProof := [] |} |}))
           w0 (marketplace "opensea" backend "os-key") sig65
           {| bulk_kind := "seaport-v1.5";
              bulk_data := {| orderIndex := 0; merkleProof := [] |} |}
           eq_refl ltac:(discriminate) eq_refl eq_refl ltac:(discriminate)
           eq_refl eq_refl (or_intror eq_refl)).
Defined.

Lemma handle_keeps_other_fields_witness :
  let p := {| order := {| kind := SeaportV15;
                          data := <["price" := JNum 5]> (<["v" := JNum 0]> ∅) |};
              signature := Some sig65; bulkData := None;
              extraArgs := {| version := "v3" |} |} in
  "price" <> "signature" /\ "price" <> "v" /\ "price" <> "r" /\ "price" <> "s" /\
  data (order (params (snd (handle p w0)))) !! "price" = Some (JNum 5).
Proof.
  split; [discriminate|]. split; [discriminate|]. split; [discriminate|].
  split; [discriminate|].
  exact (handle_keeps_other_fields
           {| order := {| kind := SeaportV15;
                          data := <["price" := JNum 5]> (<["v" := JNum 0]> ∅) |};
              signature := Some sig65; bulkData := None;
              extraArgs := {| version := "v3" |} |}
           w0 "price"
           ltac:(discriminate) ltac:(discriminate) ltac:(discriminate)
           ltac:(discriminate)).
Defined.

Lemma handle_rejection_origin_witness :
  let p := req SeaportV15 "v4" (Some "0x1234") None in
  let e := InvalidParamError "signature" "invalid signature 0x1234" in
  kind (order p) <> Blur /\
  fst (handle p w0) = Rejected e /\
  ((snd (handle p w0) = {| world := w0; params := p |}
    /\ exists param reason : string,
         e = InvalidParamError param reason
         /\ (param = "order.kind" \/ param = "signature"
             \/ param = "extraArgs.version"))
   \/
   (exists h : IPostOrderHandler,
      let p' := params (snd (handle p w0)) in
      handlers (this w0) !! kind (order p) = Some h
      /\ handler_handle h (order p') = Throw e
      /\ trace (world (snd (handle p w0)))
           = trace w0 ++ [EvHandlerCall (kind (order p)) (order p')])).
Proof.
  split; [discriminate|]. split; [reflexivity|].
  exact (handle_rejection_origin (req SeaportV15 "v4" (Some "0x1234") None) w0
           (InvalidParamError "signature" "invalid signature 0x1234")
           ltac:(discriminate) eq_refl).
Defined.

Lemma handle_fulfilment_witness :
  let p := req X2Y2 "v3" (Some sig65) None in
  kind (order p) <> Blur /\
  fst (handle p w0) = Fulfilled JUndefined /\
  (JUndefined = JUndefined
   /\ (version (extraArgs p) = "v3" \/ version (extraArgs p) = "v4")
   /\ exists h : IPostOrderHandler,
        let p' := params (snd (handle p w0)) in
        handlers (this w0) !! kind (order p) = Some h
        /\ (exists pr, handler_handle h (order p') = Normal pr)
        /\ world (snd (handle p w0))
             = {| this := this w0;
                  trace := trace w0 ++ [EvHandlerCall (kind (order p)) (order p')] |}).
Proof.
  split; [discriminate|]. split; [reflexivity|].
  exact (handle_fulfilment (req X2Y2 "v3" (Some sig65) None) w0 JUndefined
           ltac:(discriminate) eq_refl).
Defined.

Lemma unconfigured_kind_refused_witness :
  let p := req LooksRareV2 "v4" (Some sig65) (Some seaport_bulk) in
  kind (order p) <> Blur /\
  (kind (order p) = SeaportV15 -> openSeaApiKeyConfig cfg = None) /\
  (kind (order p) = LooksRareV2 -> looksRareApiKeyConfig cfg = None) /\
  (kind (order p) = X2Y2 -> x2y2ApiKeyConfig cfg = None) /\
  handle p {| this := constructor backend cfg; trace := [] |} =
    (Rejected (InvalidParamError "order.kind" "unsupported orderKind looks-rare-v2"),
     {| world := {| this := constructor backend cfg; trace := [] |}; params := p |}).
Proof.
  split; [discriminate|]. split; [discriminate|]. split; [reflexivity|].
  split; [discriminate|].
  exact (unconfigured_kind_refused backend cfg []
           (req LooksRareV2 "v4" (Some sig65) (Some seaport_bulk))
           ltac:(discriminate) ltac:(discriminate) (fun _ => eq_refl)
           ltac:(discriminate)).
Defined.

(** The same registry entry behind another backend, key and base URL. *)
Lemma handle_reads_only_its_handler_witness :
  let p := req X2Y2 "v3" (Some sig65) None in
  let other : World :=
    {| this := {| client := {| http_post := fun _ _ _ _ => Rejected (ExternalError "down") |};
                  config := {| apiKey := "another"; baseUrl := Some "http://localhost";
                               chain := Some ETH;
                               openSeaApiKeyConfig := None;
                               looksRareApiKeyConfig := None;
                               x2y2ApiKeyConfig := None |};
                  handlers := {[ X2Y2 := marketplace "x2y2" backend "" ]} |};
       trace := [EvConsoleInfo "earlier" JNull] |} in
  kind (order p) <> Blur /\
  handlers (this w0) !! kind (order p) = handlers (this other) !! kind (order p) /\
  fst (handle p w0) = fst (handle p other) /\
  params (snd (handle p w0)) = params (snd (handle p other)) /\
  exists calls : list Event,
    trace (world (snd (handle p w0))) = trace w0 ++ calls
    /\ trace (world (snd (handle p other))) = trace other ++ calls
    /\ forall (P : Type) (u : string) (body : P) (hdrs : gmap string string),
         EvHttpPost P u body hdrs ∉ calls.
Proof.
  split; [discriminate|]. split; [reflexivity|].
  exact (handle_reads_only_its_handler (req X2Y2 "v3" (Some sig65) None) w0
           {| this := {| client := {| http_post := fun _ _ _ _ => Rejected (ExternalError "down") |};
                         config := {| apiKey := "another"; baseUrl := Some "http://localhost";
                                      chain := Some ETH;
                                      openSeaApiKeyConfig := None;
                                      looksRareApiKeyConfig := None;
                                      x2y2ApiKeyConfig := None |};
                         handlers := {[ X2Y2 := marketplace "x2y2" backend "" ]} |};
              trace := [EvConsoleInfo "earlier" JNull] |}
           ltac:(discriminate) eq_refl).
Defined.

End MoreExamples.

Section ReportExamples.
Import Sample.

Lemma bulkListing_reports_refused_post_as_listed_witness :
  let orders := [mkOrder X2Y2 ∅; mkOrder LooksRareV2 ∅; mkOrder SeaportV15 ∅] in
  let nfts := List.map (listed_nft approval_env) orders in
  let o := mkOrder X2Y2 ∅ in
  let h := marketplace "x2y2" backend "" in
  let e := ExternalError "x2y2: 401" in
  prepareListing indexer nfts w0
    = (Normal JNull, snd (prepareListing indexer nfts w0)) /\
  orders !! 0 = Some o /\
  kind o <> Blur /\
  handlers (this w0) !! kind o = Some h /\
  (forall o', handler_handle h o' = Normal (Rejected e)) /\
  wallet_sign indexer o = Fulfilled sig65 /\
  is_Some (splitSignature sig65) /\
  (post_version indexer = "v3" \/ post_version indexer = "v4") /\
  submit_approval approval_env o = Fulfilled tt /\
  exists successIndexes failIndexes w',
    bulkListing indexer approval_env orders (mkPolicy true) w0
      = (Normal (successIndexes, failIndexes), w')
    /\ 0 ∈ successIndexes
    /\ 0 ∉ failIndexes.
Proof.
  split; [reflexivity|]. split; [reflexivity|]. split; [discriminate|].
  split; [reflexivity|]. split; [intros o'; reflexivity|].
  split; [reflexivity|]. split; [eexists; reflexivity|].
  split; [left; reflexivity|]. split; [reflexivity|].
  exact (bulkListing_reports_refused_post_as_listed indexer approval_env
           [mkOrder X2Y2 ∅; mkOrder LooksRareV2 ∅; mkOrder SeaportV15 ∅]
           (mkPolicy true) w0
           (snd (prepareListing indexer
                   (List.map (listed_nft approval_env)
                      [mkOrder X2Y2 ∅; mkOrder LooksRareV2 ∅; mkOrder SeaportV15 ∅])
                   w0))
           JNull 0 (mkOrder X2Y2 ∅) (marketplace "x2y2" backend "")
           (ExternalError "x2y2: 401") sig65
           {| sig_v := 27;
              sig_r := "0x" +:+ String.concat "" (List.repeat "11" 32);
              sig_s := "0x" +:+ String.concat "" (List.repeat "22" 32) |}
           eq_refl eq_refl ltac:(discriminate) eq_refl (fun _ => eq_refl)
           eq_refl eq_refl (or_introl eq_refl) eq_refl).
Defined.

(** Two orders that X2Y2 turns away with 401 come back as [[0, 1], []]. *)
Example bulkListing_two_refused_posts :
  fst (bulkListing indexer approval_env [mkOrder X2Y2 ∅; mkOrder X2Y2 ∅]
         (mkPolicy true) w0)
    = Normal ([0; 1], []).
Proof. reflexivity. Qed.

(** A bad kind and a rejected approval are recorded; under a policy that
    skips the approval, the third order goes through. *)
Example bulkListing_recorded_failures :
  let orders :=
    [mkOrder SeaportV15 ∅; mkOrder LooksRareV2 ∅;
     mkOrder SeaportV15 (<["operator-rejects" := JBool true]> ∅)] in
  fst (bulkListing indexer approval_env orders (mkPolicy true) w0)
    = Normal ([0], [1; 2])
  /\ fst (bulkListing indexer approval_env orders (mkPolicy false) w0)
    = Normal ([0; 2], [1]).
Proof. split; reflexivity. Qed.

(** The empty batch fails as a whole, on the validation of the prepare
    step. *)
Example bulkListing_empty :
  bulkListing indexer approval_env [] (mkPolicy true) w0
    = (Throw (InvalidParamError "nfts" "nfts should not be empty"), w0).
Proof. reflexivity. Qed.

End ReportExamples.
